(** * A shallow embedding of release.py (jthreaddump's release orchestrator)

    Python [str] values are modelled as Rocq [string]s, i.e. sequences of
    code points 0..255 (Latin-1); the functions of module [Py] follow
    CPython's behaviour on that range.  The release pipeline is modelled
    in a state-and-exception monad (module [Release]). *)

From Stdlib Require Import String Ascii ZArith List Lia Bool.
Import ListNotations.
Open Scope string_scope.
Open Scope Z_scope.

(** ** Python string primitives *)
Module Py.

(** [str.isspace] (and the class [\s] of [re] on [str] patterns) on
    code points 0..255. *)
Definition is_space (c : ascii) : bool :=
  let n := nat_of_ascii c in
  ((9 <=? n) && (n <=? 13))%nat || ((28 <=? n) && (n <=? 32))%nat
  || (n =? 133)%nat || (n =? 160)%nat.

(** [re]'s [\d] on code points 0..255. *)
Definition is_digit (c : ascii) : bool :=
  let n := nat_of_ascii c in ((48 <=? n) && (n <=? 57))%nat.

Definition digit_val (c : ascii) : Z := Z.of_nat (nat_of_ascii c) - 48.

Definition digit_char (d : Z) : ascii := ascii_of_nat (48 + Z.to_nat d).

(** [str.lower] on code points 0..255. *)
Definition lower_char (c : ascii) : ascii :=
  let n := nat_of_ascii c in
  if ((65 <=? n) && (n <=? 90))%nat
     || (((192 <=? n) && (n <=? 222)) && negb (n =? 215))%nat
  then ascii_of_nat (n + 32) else c.

Fixpoint lower (s : string) : string :=
  match s with
  | EmptyString => EmptyString
  | String c s' => String (lower_char c) (lower s')
  end.

Fixpoint lstrip (s : string) : string :=
  match s with
  | EmptyString => EmptyString
  | String c s' => if is_space c then lstrip s' else s
  end.

Fixpoint rstrip (s : string) : string :=
  match s with
  | EmptyString => EmptyString
  | String c s' =>
      let r := rstrip s' in
      if String.eqb r EmptyString && is_space c then EmptyString else String c r
  end.

(** [str.strip()] *)
Definition strip (s : string) : string := rstrip (lstrip s).

(** [str.split(sep)] for a one-character separator. *)
Fixpoint split (sep : ascii) (s : string) : list string :=
  match s with
  | EmptyString => [EmptyString]
  | String c s' =>
      let parts := split sep s' in
      if Ascii.eqb c sep then EmptyString :: parts
      else match parts with
           | p :: ps => String c p :: ps
           | [] => [String c EmptyString]
           end
  end.

(** Digits of a base-10 integer literal as accepted by [int()]: a digit,
    then digits each optionally preceded by one underscore.  [acc] is the
    value read so far, [after_digit] whether the previous character was
    a digit. *)
Fixpoint int_digits (s : string) (acc : Z) (after_digit : bool) : option Z :=
  match s with
  | EmptyString => if after_digit then Some acc else None
  | String c s' =>
      if is_digit c then int_digits s' (10 * acc + digit_val c) true
      else if Ascii.eqb c "_" && after_digit then int_digits s' acc false
      else None
  end.

(** [int(s)] for a [str] argument: surrounding whitespace, an optional
    sign, then the digits.  [None] is the [ValueError]. *)
Definition int (s : string) : option Z :=
  let t := strip s in
  match t with
  | String c r =>
      if Ascii.eqb c "-" then option_map Z.opp (int_digits r 0 false)
      else if Ascii.eqb c "+" then int_digits r 0 false
      else int_digits t 0 false
  | EmptyString => None
  end.

(** Decimal digits of [n >= 0], prepended to [acc]; [fuel] bounds the
    number of divisions. *)
Fixpoint dec_aux (fuel : nat) (n : Z) (acc : string) : string :=
  match fuel with
  | O => acc
  | S f =>
      let acc' := String (digit_char (n mod 10)) acc in
      if n <? 10 then acc' else dec_aux f (n / 10) acc'
  end.

(** [str(n)] for a Python [int]. *)
Definition str (n : Z) : string :=
  if n <? 0 then String "-" (dec_aux (S (Z.to_nat (- n))) (- n) EmptyString)
  else dec_aux (S (Z.to_nat n)) n EmptyString.

End Py.

(** ** VersionBumper.parse_version and the bump functions *)
Module Version.

Definition version := (Z * Z * Z)%type.

(** [parse_version]: [version.split('.')], exactly three parts, each
    through [int].  [None] is the [ValueError] raised by the method. *)
Definition parse_version (v : string) : option version :=
  match Py.split "." v with
  | [p1; p2; p3] =>
      match Py.int p1, Py.int p2, Py.int p3 with
      | Some a, Some b, Some c => Some (a, b, c)
      | _, _, _ => None
      end
  | _ => None
  end.

(** The f-string [f"{major}.{minor}.{patch}"] used to render a version. *)
Definition format_version (v : version) : string :=
  let '(a, b, c) := v in Py.str a ++ "." ++ Py.str b ++ "." ++ Py.str c.

Definition bump_minor (v : string) : option string :=
  match parse_version v with
  | Some (major, minor, patch) =>
      Some (Py.str major ++ "." ++ Py.str (minor + 1) ++ ".0")
  | None => None
  end.

Definition bump_major (v : string) : option string :=
  match parse_version v with
  | Some (major, minor, patch) => Some (Py.str (major + 1) ++ ".0.0")
  | None => None
  end.

Definition bump_patch (v : string) : option string :=
  match parse_version v with
  | Some (major, minor, patch) =>
      Some (Py.str major ++ "." ++ Py.str minor ++ "." ++ Py.str (patch + 1))
  | None => None
  end.

End Version.


(** ** The parts of Python's [re] used by release.py

    Each regular expression of the source is embedded as a matcher that
    follows the backtracking order of [re]: greedy quantifiers try the
    longest run first and give back one character at a time, lazy ones try
    the shortest first. *)
Module Re.
Import Py.

Definition nl : ascii := ascii_of_nat 10.
Definition NL : string := String nl EmptyString.

Fixpoint drop (n : nat) (s : string) : string :=
  match n, s with
  | O, _ => s
  | S n', String _ s' => drop n' s'
  | S _, EmptyString => EmptyString
  end.

Definition not_nl (c : ascii) : bool := negb (Ascii.eqb c nl).
Definition digit_or_dot (c : ascii) : bool := is_digit c || Ascii.eqb c ".".

(** [C*] (greedy) for a character class [cls], followed by the rest of the
    pattern [k], which receives the text consumed so far and the text left. *)
Fixpoint star {R : Type} (cls : ascii -> bool) (k : string -> string -> option R)
    (acc s : string) : option R :=
  match s with
  | String c s' =>
      if cls c then
        match star cls k (acc ++ String c EmptyString) s' with
        | Some r => Some r
        | None => k acc s
        end
      else k acc s
  | EmptyString => k acc EmptyString
  end.

(** [C+] (greedy). *)
Definition plus {R : Type} (cls : ascii -> bool) (k : string -> string -> option R)
    (s : string) : option R :=
  match s with
  | String c s' => if cls c then star cls k (String c EmptyString) s' else None
  | EmptyString => None
  end.

(** [re.search]: the leftmost position where [at_pos] matches. *)
Fixpoint search {R : Type} (at_pos : string -> option R) (s : string) : option R :=
  match at_pos s with
  | Some r => Some r
  | None =>
      match s with
      | String _ s' => search at_pos s'
      | EmptyString => None
      end
  end.

(** Expansion of a replacement template of [re.sub].  [None] stands for
    the [re.error] raised on a bad escape; group references and octal
    escapes (none of the templates of release.py contains a backslash)
    are also mapped to [None], i.e. not expanded by this model. *)
Definition template_escape (d : ascii) : option string :=
  let n := nat_of_ascii d in
  if Ascii.eqb d "a" then Some (String (ascii_of_nat 7) EmptyString)
  else if Ascii.eqb d "b" then Some (String (ascii_of_nat 8) EmptyString)
  else if Ascii.eqb d "f" then Some (String (ascii_of_nat 12) EmptyString)
  else if Ascii.eqb d "n" then Some (String (ascii_of_nat 10) EmptyString)
  else if Ascii.eqb d "r" then Some (String (ascii_of_nat 13) EmptyString)
  else if Ascii.eqb d "t" then Some (String (ascii_of_nat 9) EmptyString)
  else if Ascii.eqb d "v" then Some (String (ascii_of_nat 11) EmptyString)
  else if Ascii.eqb d "\" then Some (String "\" EmptyString)
  else if is_digit d then None
  else if ((65 <=? n) && (n <=? 90) || (97 <=? n) && (n <=? 122))%nat then None
  else Some (String "\" (String d EmptyString)).

Fixpoint expand_template (t : string) : option string :=
  match t with
  | EmptyString => Some EmptyString
  | String c t' =>
      if Ascii.eqb c "\" then
        match t' with
        | EmptyString => None
        | String d t'' =>
            match template_escape d, expand_template t'' with
            | Some e, Some r => Some (e ++ r)
            | _, _ => None
            end
        end
      else option_map (String c) (expand_template t')
  end.

(** The scan of [re.sub]: [at_pos s] is the length of the match starting
    at [s] (the patterns of release.py never match the empty string),
    [repl] the expanded replacement, [count] the remaining number of
    replacements ([None]: all), [skip] the characters of the current match
    still to be dropped. *)
Fixpoint sub_go (at_pos : string -> option nat) (repl : string) (count : option nat)
    (skip : nat) (s : string) : string :=
  match s with
  | EmptyString => EmptyString
  | String c s' =>
      match skip with
      | S k => sub_go at_pos repl count k s'
      | O =>
          match count, at_pos s with
          | Some O, _ | _, None => String c (sub_go at_pos repl count O s')
          | _, Some len =>
              repl ++ sub_go at_pos repl (option_map pred count) (pred len) s'
          end
      end
  end.

(** [re.sub(pattern, template, s, count)]; [count = None] is [count=0]. *)
Definition sub (at_pos : string -> option nat) (template : string) (count : option nat)
    (s : string) : option string :=
  match expand_template template with
  | Some repl => Some (sub_go at_pos repl count O s)
  | None => None
  end.

(** A pattern that is a plain literal. *)
Definition literal_at (pat : string) (s : string) : option nat :=
  if prefix pat s then Some (String.length pat) else None.

End Re.

(** ** ChangelogLedger: the CHANGELOG.md functions of VersionBumper *)
Module Changelog.
Import Py Re.

(** The lookahead [(?=\n## \[|$)] ([$] without MULTILINE: the end of the
    text, or just before a newline that ends it). *)
Definition section_end (s : string) : bool :=
  prefix (NL ++ "## [") s || String.eqb s EmptyString || String.eqb s NL.

(** The lazy group [(.*?)] under DOTALL, followed by [section_end]. *)
Fixpoint lazy_section (acc s : string) : string :=
  if section_end s then acc
  else match s with
       | String c s' => lazy_section (acc ++ String c EmptyString) s'
       | EmptyString => acc
       end.

(** [## \[Unreleased\]\s*\n(.*?)(?=\n## \[|$)] at the start of [s]:
    the group. *)
Definition unreleased_at (s : string) : option string :=
  if prefix "## [Unreleased]" s then
    star is_space
      (fun _ r => match r with
                  | String c r' => if Ascii.eqb c nl then Some (lazy_section EmptyString r')
                                   else None
                  | EmptyString => None
                  end)
      EmptyString (drop 15 s)
  else None.

(** [get_changelog_entry] on the text of CHANGELOG.md ([None]: the file
    does not exist). *)
Definition get_changelog_entry (changelog : option string) : string :=
  match changelog with
  | None => EmptyString
  | Some content =>
      match search unreleased_at content with
      | Some g => strip g
      | None => EmptyString
      end
  end.

(** [validate_changelog]: [not entry or len(entry) < 20] fails. *)
Definition validate_changelog (changelog : option string) : bool :=
  let entry := get_changelog_entry changelog in
  negb (String.eqb entry EmptyString || (String.length entry <? 20)%nat).

(** [## \[<version>\][^\n]*\n(.*?)(?=\n## \[|$)] at the start of [s]. *)
Definition version_at (version : string) (s : string) : option string :=
  let head := "## [" ++ version ++ "]" in
  if prefix head s then
    star not_nl
      (fun _ r => match r with
                  | String c r' => if Ascii.eqb c nl then Some (lazy_section EmptyString r')
                                   else None
                  | EmptyString => None
                  end)
      EmptyString (drop (String.length head) s)
  else None.

(** The loop of [get_version_changelog_entry] that drops the [###]
    headers with no content line after them. *)
Fixpoint elide_empty (header : option string) (lines : list string) : list string :=
  match lines with
  | [] => []
  | line :: rest =>
      if prefix "###" line then elide_empty (Some line) rest
      else if String.eqb (strip line) EmptyString then elide_empty header rest
      else match header with
           | Some h => h :: line :: elide_empty None rest
           | None => line :: elide_empty None rest
           end
  end.

Definition get_version_changelog_entry (version : string) (changelog : option string)
    : string :=
  match changelog with
  | None => EmptyString
  | Some content =>
      match search (version_at version) content with
      | Some g => String.concat NL (elide_empty None (split nl (strip g)))
      | None => EmptyString
      end
  end.

(** The replacement text of [update_changelog]'s first [re.sub]. *)
Definition version_section (version today : string) : string :=
  "## [Unreleased]" ++ NL ++ NL ++ "### Added" ++ NL ++ "### Changed" ++ NL
  ++ "### Deprecated" ++ NL ++ "### Removed" ++ NL ++ "### Fixed" ++ NL
  ++ "### Security" ++ NL ++ NL ++ "## [" ++ version ++ "] - " ++ today.

(** [\[Unreleased\]: (.+)/compare/v([\d.]+)\.\.\.HEAD] at the start of
    [s]: the two groups. *)
Definition compare_link_at (s : string) : option (string * string) :=
  if prefix "[Unreleased]: " s then
    plus not_nl
      (fun base_url r =>
         if prefix "/compare/v" r then
           plus digit_or_dot
             (fun old_version r' =>
                if prefix "...HEAD" r' then Some (base_url, old_version) else None)
             (drop 10 r)
         else None)
      (drop 14 s)
  else None.

(** [\[Unreleased\]: .+] at the start of [s]: the length of the match. *)
Definition unreleased_link_at (s : string) : option nat :=
  if prefix "[Unreleased]: " s then
    plus not_nl (fun g _ => Some (14 + String.length g)%nat) (drop 14 s)
  else None.

(** [update_changelog] on the text of an existing CHANGELOG.md, with
    [today] the date [datetime.now().strftime('%Y-%m-%d')].  [None] is an
    [re.error]. *)
Definition update_changelog_text (version today content : string) : option string :=
  match sub (literal_at "## [Unreleased]") (version_section version today) (Some 1%nat)
          content with
  | None => None
  | Some content1 =>
      match search compare_link_at content1 with
      | Some (base_url, old_version) =>
          let new_links :=
            "[Unreleased]: " ++ base_url ++ "/compare/v" ++ version ++ "...HEAD" ++ NL
            ++ "[" ++ version ++ "]: " ++ base_url ++ "/compare/v" ++ old_version
            ++ "...v" ++ version in
          sub unreleased_link_at new_links None content1
      | None => Some content1
      end
  end.

End Changelog.

(** ** The release pipeline: VersionBumper's file and command steps and [main]

    The process state holds the files the script touches (the four
    declared files, their copies in [.release-backup] and
    [.release-notes.md]), whether [.release-backup] exists, the flag
    [backups_created], the lines still to be read by [input], and a log of
    the observable effects: every external command run with its exit
    status, every file written, and the completion of the backup capture.
    The external world is part of the state: [proc] gives the exit status
    of a command (given the log so far; [None]: the executable does not
    exist), [jar_built] whether [target/jthreaddump.jar] exists, [today]
    the date [datetime.now().strftime('%Y-%m-%d')] and [root] the project
    root.  The commands are assumed not to write the files of the model.
    Printing has no effect in the model; [KeyboardInterrupt] is not
    modelled. *)
Module Release.
Import Py Re Changelog.

Inductive file : Type := PomXml | MainJava | ReadmeMd | ChangelogMd.

(** [Src f] is the file in the project, [Bak f] its copy
    [.release-backup/<name>], [Notes] is [.release-notes.md]. *)
Inductive path : Type := Src (f : file) | Bak (f : file) | Notes.

Definition file_eqb (f g : file) : bool :=
  match f, g with
  | PomXml, PomXml | MainJava, MainJava | ReadmeMd, ReadmeMd
  | ChangelogMd, ChangelogMd => true
  | _, _ => false
  end.

Definition path_eqb (p q : path) : bool :=
  match p, q with
  | Src f, Src g | Bak f, Bak g => file_eqb f g
  | Notes, Notes => true
  | _, _ => false
  end.

Inductive event : Type :=
| Ran (cmd : list string) (status : option Z)
| Wrote (p : path)
| BackedUp.

Record state : Type := mkState {
  fs : path -> option string;
  bakdir : bool;
  backups_created : bool;
  stdin : list string;
  events : list event;
  proc : list event -> list string -> option Z;
  jar_built : list event -> bool;
  today : string;
  root : string }.

Definition set_fs (s : state) (f : path -> option string) : state :=
  mkState f (bakdir s) (backups_created s) (stdin s) (events s) (proc s) (jar_built s)
    (today s) (root s).
Definition set_bakdir (s : state) (b : bool) : state :=
  mkState (fs s) b (backups_created s) (stdin s) (events s) (proc s) (jar_built s)
    (today s) (root s).
Definition set_backups_created (s : state) (b : bool) : state :=
  mkState (fs s) (bakdir s) b (stdin s) (events s) (proc s) (jar_built s) (today s) (root s).
Definition set_stdin (s : state) (l : list string) : state :=
  mkState (fs s) (bakdir s) (backups_created s) l (events s) (proc s) (jar_built s)
    (today s) (root s).
Definition log (s : state) (e : event) : state :=
  mkState (fs s) (bakdir s) (backups_created s) (stdin s) (events s ++ [e]) (proc s)
    (jar_built s) (today s) (root s).

Definition upd (m : path -> option string) (p : path) (v : option string) :
    path -> option string :=
  fun q => if path_eqb q p then v else m q.

(** The exceptions that reach [main]: [SystemExit] of [sys.exit], and the
    [Exception]s [ValueError], [FileNotFoundError] (also for an external
    command that does not exist), [EOFError] of [input] and [re.error]. *)
Inductive exn : Type :=
| SystemExit (code : Z)
| ValueError
| FileNotFoundError
| EOFError
| ReError.

Inductive result (A : Type) : Type :=
| Ok (a : A)
| Exc (e : exn).
Arguments Ok {A} a.
Arguments Exc {A} e.

Definition M (A : Type) : Type := state -> result A * state.

Definition ret {A : Type} (a : A) : M A := fun s => (Ok a, s).

Definition bind {A B : Type} (m : M A) (k : A -> M B) : M B :=
  fun s => match m s with
           | (Ok a, s') => k a s'
           | (Exc e, s') => (Exc e, s')
           end.

Definition raise {A : Type} (e : exn) : M A := fun s => (Exc e, s).

Definition get : M state := fun s => (Ok s, s).

Declare Scope release_scope.
Notation "x <- m ;; k" := (bind m (fun x => k))
  (at level 61, m at next level, right associativity) : release_scope.
Notation "m ;; k" := (bind m (fun _ => k))
  (at level 61, right associativity) : release_scope.
Open Scope release_scope.

(** [except Exception] catches everything but [SystemExit]. *)
Definition is_exception (e : exn) : bool :=
  match e with SystemExit _ => false | _ => true end.

Definition try_except {A : Type} (m : M A) (h : exn -> M A) : M A :=
  fun s => match m s with
           | (Exc e, s') => if is_exception e then h e s' else (Exc e, s')
           | r => r
           end.

(** [try: m finally: fin]; an exception of [fin] replaces the outcome of [m]. *)
Definition try_finally {A : Type} (m : M A) (fin : M unit) : M A :=
  fun s => let (r, s') := m s in
           match fin s' with
           | (Ok _, s'') => (r, s'')
           | (Exc e, s'') => (Exc e, s'')
           end.

Definition sys_exit {A : Type} (code : Z) : M A := raise (SystemExit code).

(** [Path.exists], [Path.read_text], [Path.write_text], [Path.unlink]. *)
Definition path_exists (p : path) : M bool :=
  fun s => (Ok (match fs s p with Some _ => true | None => false end), s).

Definition read_text (p : path) : M string :=
  fun s => match fs s p with
           | Some c => (Ok c, s)
           | None => (Exc FileNotFoundError, s)
           end.

Definition write_text (p : path) (c : string) : M unit :=
  fun s => (Ok tt, log (set_fs s (upd (fs s) p (Some c))) (Wrote p)).

Definition unlink (p : path) : M unit :=
  fun s => match fs s p with
           | Some _ => (Ok tt, set_fs s (upd (fs s) p None))
           | None => (Exc FileNotFoundError, s)
           end.

(** [shutil.copy2]. *)
Definition copy2 (src dst : path) : M unit :=
  c <- read_text src;; write_text dst c.

(** [input()]. *)
Definition input : M string :=
  fun s => match stdin s with
           | l :: rest => (Ok l, set_stdin s rest)
           | [] => (Exc EOFError, s)
           end.

(** [subprocess.run(cmd, ...)]: the exit status, logged. *)
Definition run_status (cmd : list string) : M (option Z) :=
  fun s => let st := proc s (events s) cmd in (Ok st, log s (Ran cmd st)).

Definition subprocess_run (cmd : list string) : M Z :=
  st <- run_status cmd;;
  match st with
  | Some z => ret z
  | None => raise FileNotFoundError
  end.

(** [self.backup_dir.exists()], [mkdir(exist_ok=True)], [shutil.rmtree]. *)
Definition backup_dir_exists : M bool := fun s => (Ok (bakdir s), s).

Definition mkdir_backup_dir : M unit := fun s => (Ok tt, set_bakdir s true).

Definition rmtree_backup_dir : M unit :=
  fun s => (Ok tt, set_bakdir (set_fs s (fun p => match p with
                                                  | Bak _ => None
                                                  | _ => fs s p
                                                  end)) false).

(** [self.backups_created = True]: the end of the backup capture. *)
Definition mark_backups_created : M unit :=
  fun s => (Ok tt, log (set_backups_created s true) BackedUp).

(** Python's [str.replace(old, new, count)] ([count = None]: all). *)
Fixpoint replace_empty (new : string) (count : option nat) (s : string) : string :=
  match count with
  | Some O => s
  | _ =>
      match s with
      | EmptyString => new
      | String c s' => new ++ String c (replace_empty new (option_map pred count) s')
      end
  end.

Definition replace (s old new : string) (count : option nat) : string :=
  if String.eqb old EmptyString then replace_empty new count s
  else sub_go (literal_at old) new count O s.

Definition dq : string := String (ascii_of_nat 34) EmptyString.

Definition update_pom_xml (old_version new_version : string) : M unit :=
  content <- read_text (Src PomXml);;
  write_text (Src PomXml)
    (replace content ("<version>" ++ old_version ++ "</version>")
       ("<version>" ++ new_version ++ "</version>") (Some 1%nat)).

Definition update_main_java (old_version new_version : string) : M unit :=
  content <- read_text (Src MainJava);;
  write_text (Src MainJava)
    (replace content ("version = " ++ dq ++ old_version ++ dq)
       ("version = " ++ dq ++ new_version ++ dq) None).

Definition update_readme (old_version new_version : string) : M unit :=
  content <- read_text (Src ReadmeMd);;
  write_text (Src ReadmeMd)
    (replace content ("<version>" ++ old_version ++ "</version>")
       ("<version>" ++ new_version ++ "</version>") None).

Definition update_changelog (version : string) : M unit :=
  e <- path_exists (Src ChangelogMd);;
  if negb e then ret tt
  else
    content <- read_text (Src ChangelogMd);;
    s <- get;;
    match update_changelog_text version (today s) content with
    | Some content' => write_text (Src ChangelogMd) content'
    | None => raise ReError
    end.

Definition backup_file (f : file) : M unit :=
  e <- path_exists (Src f);;
  if e then copy2 (Src f) (Bak f) else ret tt.

Definition create_backups : M unit :=
  mkdir_backup_dir;;
  backup_file PomXml;; backup_file MainJava;; backup_file ReadmeMd;;
  backup_file ChangelogMd;;
  mark_backups_created.

Definition restore_file (f : file) : M unit :=
  e <- path_exists (Bak f);;
  if e then copy2 (Bak f) (Src f) else ret tt.

Definition restore_backups : M unit :=
  s <- get;;
  d <- backup_dir_exists;;
  if negb (backups_created s) || negb d then ret tt
  else
    restore_file PomXml;; restore_file MainJava;; restore_file ReadmeMd;;
    restore_file ChangelogMd.

Definition cleanup_backups : M unit :=
  d <- backup_dir_exists;;
  if d then rmtree_backup_dir else ret tt.

Definition run_command (cmd : list string) (check : bool) : M Z :=
  z <- subprocess_run cmd;;
  if negb (z =? 0) && check then
    restore_backups;;
    sys_exit 1
  else ret z.

Definition run_tests : M unit := run_command ["mvn"; "clean"; "test"] true;; ret tt.

Definition build_package : M unit := run_command ["mvn"; "clean"; "package"] true;; ret tt.

Definition deploy_release : M unit :=
  run_command ["mvn"; "clean"; "deploy"; "-P"; "release"] true;; ret tt.

Definition git_commit (version : string) : M unit :=
  run_command ["git"; "add"; "pom.xml"; "src/main/java/me/bechberger/jthreaddump/Main.java";
               "README.md"; "CHANGELOG.md"] true;;
  run_command ["git"; "commit"; "-m"; "Bump version to " ++ version] true;;
  ret tt.

Definition git_tag (version : string) : M unit :=
  let tag := "v" ++ version in
  run_command ["git"; "tag"; "-a"; tag; "-m"; "Release " ++ version] true;; ret tt.

Definition git_push (push_tags : bool) : M unit :=
  run_command ["git"; "push"] true;;
  if push_tags then (run_command ["git"; "push"; "--tags"] true;; ret tt) else ret tt.

Definition default_entry (version : string) : string :=
  "Release " ++ version ++ NL ++ NL
  ++ "See [CHANGELOG.md](https://github.com/parttimenerd/jthreaddump/blob/main/CHANGELOG.md) for details.".

Definition release_notes (version changelog_entry : string) : string :=
  "# Release " ++ version ++ NL ++ NL ++ changelog_entry ++ NL ++ NL
  ++ "## Installation" ++ NL ++ NL ++ "### Maven" ++ NL ++ "```xml" ++ NL
  ++ "<dependency>" ++ NL
  ++ "    <groupId>me.bechberger</groupId>" ++ NL
  ++ "    <artifactId>jthreaddump</artifactId>" ++ NL
  ++ "    <version>" ++ version ++ "</version>" ++ NL
  ++ "</dependency>" ++ NL ++ "```" ++ NL ++ NL
  ++ "### Download JAR" ++ NL
  ++ "Download `jthreaddump.jar` from the assets below." ++ NL.

(** [gh --version] is run with [check=True] inside a [try] that catches
    [CalledProcessError] and [FileNotFoundError]; [gh auth status] inside a
    bare [try]: both return early on a non-zero or missing command. *)
Definition create_github_release (version : string) : M unit :=
  let tag := "v" ++ version in
  st <- run_status ["gh"; "--version"];;
  match st with
  | Some Z0 =>
      st' <- run_status ["gh"; "auth"; "status"];;
      match st' with
      | Some Z0 =>
          s <- get;;
          let entry := get_version_changelog_entry version (fs s (Src ChangelogMd)) in
          let changelog_entry := if String.eqb entry EmptyString then default_entry version
                                 else entry in
          let notes_file := root s ++ "/.release-notes.md" in
          write_text Notes (release_notes version changelog_entry);;
          try_finally
            (s' <- get;;
             let jar_path := root s ++ "/target/jthreaddump.jar" in
             (if negb (jar_built s' (events s')) then
                run_command ["gh"; "release"; "create"; tag; "--title"; "Release " ++ version;
                             "--notes-file"; notes_file] true
              else
                run_command ["gh"; "release"; "create"; tag; "--title"; "Release " ++ version;
                             "--notes-file"; notes_file; jar_path ++ "#jthreaddump.jar"] true);;
             ret tt)
            (e <- path_exists Notes;; if e then unlink Notes else ret tt)
      | _ => ret tt
      end
  | _ => ret tt
  end.

(** [get_current_version]: [<version>([\d.]+)</version>] on pom.xml. *)
Definition version_tag_at (s : string) : option string :=
  if prefix "<version>" s then
    plus digit_or_dot (fun g r => if prefix "</version>" r then Some g else None) (drop 9 s)
  else None.

Definition get_current_version : M string :=
  pom_content <- read_text (Src PomXml);;
  match search version_tag_at pom_content with
  | Some v => ret v
  | None => raise ValueError
  end.

(** A bump: [None] is the [ValueError] of [parse_version]. *)
Definition or_value_error (r : option string) : M string :=
  match r with Some v => ret v | None => raise ValueError end.

Definition is_yes (response : string) : bool :=
  let r := lower response in String.eqb r "y" || String.eqb r "yes".

(** The command-line flags. *)
Record args : Type := mkArgs {
  major : bool; minor : bool; patch : bool; no_deploy : bool;
  no_github_release : bool; no_push : bool; skip_tests : bool; dry_run : bool }.

(** The [try] block of [main]. *)
Definition release_body (a : args) (current_version new_version : string) : M unit :=
  let do_deploy := negb (no_deploy a) in
  let do_github_release := negb (no_github_release a) in
  let do_push := negb (no_push a) in
  create_backups;;
  update_pom_xml current_version new_version;;
  update_main_java current_version new_version;;
  update_readme current_version new_version;;
  update_changelog new_version;;
  (if negb (skip_tests a) then run_tests else ret tt);;
  build_package;;
  (if do_deploy then
     response <- input;;
     if negb (is_yes response) then ret tt else deploy_release
   else ret tt);;
  git_commit new_version;;
  git_tag new_version;;
  (if do_push then git_push true else ret tt);;
  (if do_github_release then create_github_release new_version else ret tt);;
  cleanup_backups.

(** [main] after argument parsing; the dry run only prints. *)
Definition main (a : args) : M unit :=
  current_version <- get_current_version;;
  new_version <- or_value_error
                   (if major a then Version.bump_major current_version
                    else if patch a then Version.bump_patch current_version
                    else Version.bump_minor current_version);;
  s <- get;;
  (if negb (dry_run a) && negb (validate_changelog (fs s (Src ChangelogMd)))
   then sys_exit 1 else ret tt);;
  if dry_run a then ret tt
  else
    response <- input;;
    if negb (is_yes response) then sys_exit 0
    else
      try_except (release_body a current_version new_version)
        (fun e => restore_backups;; raise e).

(** The exit status of the process: an uncaught exception other than
    [SystemExit] exits with 1. *)
Definition exit_code (r : result unit) : Z :=
  match r with
  | Ok _ => 0
  | Exc (SystemExit z) => z
  | Exc _ => 1
  end.

End Release.

(** ** Predicates and sample documents used by the statements *)
Module Props.
Import Py Re.

(** Every character of [s] is in the class [p]. *)
Fixpoint all_chars (p : ascii -> bool) (s : string) : bool :=
  match s with
  | EmptyString => true
  | String c s' => p c && all_chars p s'
  end.

(** No occurrence of [pat] starts at a position inside [X], when [X] is
    followed by [R]. *)
Definition no_match_before (pat X R : string) : Prop :=
  forall X1 X2, X = X1 ++ X2 -> X2 <> EmptyString -> prefix pat (X2 ++ R) = false.

(** A conflict between [p] and [s] within their common length. *)
Fixpoint conflict (p s : string) : bool :=
  match p, s with
  | String a p', String b s' => if Ascii.eqb a b then conflict p' s' else true
  | _, _ => false
  end.

Fixpoint nowhere_within (pat X : string) : bool :=
  match X with
  | EmptyString => true
  | String c X' => conflict pat X && nowhere_within pat X'
  end.

(** A changelog whose [Unreleased] section is empty, followed by a released
    section. *)
Definition doc_empty_pending : string :=
  "## [Unreleased]" ++ NL ++ NL ++ "## [0.3.1] - 2024-01-01" ++ NL ++ "### Added" ++ NL
  ++ "- Initial release of the library" ++ NL.

Definition doc_filled : string :=
  "# Changelog" ++ NL ++ NL ++ "## [Unreleased]" ++ NL ++ NL ++ "### Added" ++ NL
  ++ "- Support for virtual threads" ++ NL ++ NL ++ "## [0.3.1] - 2024-01-01" ++ NL
  ++ "### Added" ++ NL ++ "- Initial release" ++ NL ++ NL
  ++ "[Unreleased]: https://github.com/o/r/compare/v0.3.1...HEAD" ++ NL
  ++ "[0.3.1]: https://github.com/o/r/releases/tag/v0.3.1" ++ NL.

(** The [###] headers kept by the loop are the ones with a content line
    after them. *)
Fixpoint headers_followed (l : list string) : bool :=
  match l with
  | [] => true
  | x :: l' =>
      (if prefix "###" x then
         match l' with
         | y :: _ => negb (prefix "###" y) && negb (String.eqb (strip y) EmptyString)
         | [] => false
         end
       else true) && headers_followed l'
  end.

End Props.

(** ** Predicates on the log of a run, and the invariants of the pipeline *)
Module Trace.
Import Release.

Fixpoint cmd_eqb (a b : list string) : bool :=
  match a, b with
  | [], [] => true
  | x :: a', y :: b' => String.eqb x y && cmd_eqb a' b'
  | _, _ => false
  end.

Definition tests_cmd : list string := ["mvn"; "clean"; "test"].

(** The required steps: every [mvn] command (tests, package, deploy) and
    every [git] command (add, commit, tag, push) the script runs. *)
Definition required_step (cmd : list string) : bool :=
  match cmd with
  | x :: _ => String.eqb x "mvn" || String.eqb x "git"
  | [] => false
  end.

Definition is_git (cmd : list string) : bool :=
  match cmd with
  | x :: _ => String.eqb x "git"
  | [] => false
  end.

Definition no_ran (l : list event) : bool :=
  forallb (fun e => match e with Ran _ _ => false | _ => true end) l.

Definition bak_writes (l : list event) : bool :=
  forallb (fun e => match e with Wrote (Bak _) => true | _ => false end) l.

(** No required step exited with a non-zero status. *)
Definition no_fail (l : list event) : bool :=
  forallb (fun e => match e with
                    | Ran c (Some z) => negb (required_step c) || (z =? 0)
                    | _ => true
                    end) l.

Definition no_git (l : list event) : bool :=
  forallb (fun e => match e with Ran c _ => negb (is_git c) | _ => true end) l.

Definition tests_failed (l : list event) : bool :=
  existsb (fun e => match e with
                    | Ran c (Some z) => cmd_eqb c tests_cmd && negb (z =? 0)
                    | _ => false
                    end) l.

Definition tests_ok (l : list event) : bool := negb (tests_failed l) || no_git l.

(** Every write of a declared file comes after [BackedUp]. *)
Fixpoint ordered_from (seen : bool) (l : list event) : bool :=
  match l with
  | [] => true
  | BackedUp :: l' => ordered_from true l'
  | Wrote (Src _) :: l' => seen && ordered_from seen l'
  | _ :: l' => ordered_from seen l'
  end.

Definition ordered (l : list event) : bool := ordered_from false l.

Section Invariants.
Variable s0 : state.

(** The backups hold the initial content of every declared file that existed. *)
Definition BK (s : state) : Prop :=
  backups_created s = true /\ bakdir s = true /\
  forall f, fs s0 (Src f) <> None -> fs s (Bak f) = fs s0 (Src f).

Definition Restored (s : state) : Prop :=
  forall f, fs s0 (Src f) <> None -> fs s (Src f) = fs s0 (Src f).

Definition Ord (s : state) : Prop :=
  ordered (events s) = true /\ (backups_created s = true -> In BackedUp (events s)).

(** The state before the backup: the declared files as at the start, an
    empty log, no backup taken. *)
Definition Fresh (s : state) : Prop :=
  (forall f, fs s (Src f) = fs s0 (Src f)) /\ events s = [] /\ backups_created s = false.

(** What holds when an exception [e] leaves a step. *)
Definition Post (e : exn) (s : state) : Prop :=
  Ord s /\
  (no_fail (events s) = true \/
   (e = SystemExit 1 /\ Restored s /\ tests_ok (events s) = true)).

(** The state between the steps of the [try] block after the backup;
    [ng]: no [git] command has run yet. *)
Definition Run (ng : bool) (s : state) : Prop :=
  BK s /\ no_fail (events s) = true /\ ordered (events s) = true /\
  In BackedUp (events s) /\ (ng = true -> no_git (events s) = true).

End Invariants.

(** A step from [P] to [Q], an exception [e] leaving it in [E e]. *)
Definition step {A : Type} (E : exn -> state -> Prop) (P : state -> Prop) (m : M A)
    (Q : A -> state -> Prop) : Prop :=
  forall s, P s -> match m s with
                   | (Ok a, s') => Q a s'
                   | (Exc e, s') => E e s'
                   end.

End Trace.

(** ** Sample process states *)
Module Samples.
Import Py Re Changelog Props Release Trace.

Definition sample_fs (p : path) : option string :=
  match p with
  | Src PomXml => Some "<project><version>0.3.1</version></project>"
  | Src MainJava => Some ("public static final String version = " ++ dq ++ "0.3.1" ++ dq ++ ";")
  | Src ReadmeMd => Some "<version>0.3.1</version>"
  | Src ChangelogMd => Some doc_filled
  | _ => None
  end.

(** A release where the command [failing] exits with 1 and every other
    command with 0, and both questions are answered with [y]. *)
Definition sample_state (failing : list string) : state :=
  mkState sample_fs false false ["y"; "y"] []
    (fun _ cmd => if cmd_eqb cmd failing then Some 1 else Some 0)
    (fun _ => true) "2026-10-17" "/home/user/jthreaddump".

Definition default_args : args := mkArgs false false false false false false false false.

(** A changelog whose [Unreleased] section is too short. *)
Definition short_changelog : state :=
  set_fs (sample_state []) (upd sample_fs (Src ChangelogMd)
                              (Some ("## [Unreleased]" ++ NL ++ "- Fix" ++ NL))).

(** A Main.java that does not declare the version. *)
Definition unversioned_main_java : state :=
  set_fs (sample_state []) (upd sample_fs (Src MainJava) (Some "public class Main {}")).

(** A dry run ([--dry-run]). *)
Definition dry_run_args : args := mkArgs false false false false false false false true.

(** The confirmation answered with [n]. *)
Definition declining_state : state := set_stdin (sample_state []) ["n"].

(** A checkout without Main.java. *)
Definition missing_main_java : state :=
  set_fs (sample_state []) (upd sample_fs (Src MainJava) None).

(** No CHANGELOG.md, but a copy of one left in the backup directory by an
    earlier run. *)
Definition stale_backup_state : state :=
  set_bakdir (set_fs (sample_state [])
                (upd (upd sample_fs (Src ChangelogMd) None) (Bak ChangelogMd)
                   (Some "# Changelog"))) true.

End Samples.

(** * Proofs *)

(** ** Facts about the string primitives *)
Module PyFacts.
Import Py Props.

Ltac ascii_cases c := destruct c as [[] [] [] [] [] [] [] []].


Lemma digit_char_ok (d : Z) :
  0 <= d < 10 -> is_digit (digit_char d) = true /\ digit_val (digit_char d) = d.
Proof.
  intros H.
  assert (d = 0 \/ d = 1 \/ d = 2 \/ d = 3 \/ d = 4 \/ d = 5 \/ d = 6 \/ d = 7
          \/ d = 8 \/ d = 9) as Hd by lia.
  repeat destruct Hd as [-> | Hd]; try (subst; split; reflexivity).
Qed.

Lemma digit_not_space (c : ascii) : is_digit c = true -> is_space c = false.
Proof. ascii_cases c; vm_compute; congruence. Qed.

Lemma int_digits_dec_aux (f : nat) : forall n acc b,
  0 <= n -> (Z.to_nat n < f)%nat ->
  int_digits (dec_aux f n acc) 0 b = int_digits acc n true.
Proof.
  induction f as [|f IH]; intros n acc b Hn Hf; [lia|].
  cbn [dec_aux].
  pose proof (Z.mod_pos_bound n 10 ltac:(lia)) as Hm.
  destruct (digit_char_ok (n mod 10) Hm) as [Hd Hv].
  destruct (Z.ltb_spec n 10) as [Hlt|Hge].
  - cbn [int_digits]. rewrite Hd, Hv. rewrite Z.mod_small by lia. f_equal; lia.
  - rewrite IH.
    + cbn [int_digits]. rewrite Hd, Hv.
      rewrite <- Z.div_mod by lia. reflexivity.
    + apply Z.div_pos; lia.
    + assert (n / 10 < n) by (apply Z.div_lt; lia).
      assert (0 <= n / 10) by (apply Z.div_pos; lia). lia.
Qed.

Lemma dec_aux_digits (f : nat) : forall n acc,
  all_chars is_digit acc = true -> all_chars is_digit (dec_aux f n acc) = true.
Proof.
  induction f as [|f IH]; intros n acc H; cbn [dec_aux]; [exact H|].
  pose proof (Z.mod_pos_bound n 10 ltac:(lia)) as Hm.
  destruct (digit_char_ok (n mod 10) Hm) as [Hd _].
  destruct (n <? 10); [|apply IH]; cbn [all_chars]; rewrite Hd, H; reflexivity.
Qed.

Lemma dec_aux_nonempty (f : nat) : forall n acc,
  acc <> EmptyString -> dec_aux f n acc <> EmptyString.
Proof.
  induction f as [|f IH]; intros n acc H; cbn [dec_aux]; [exact H|].
  destruct (n <? 10); [discriminate|apply IH; discriminate].
Qed.

Lemma dec_aux_S_nonempty (f : nat) (n : Z) (acc : string) :
  dec_aux (S f) n acc <> EmptyString.
Proof.
  cbn [dec_aux]. destruct (n <? 10); [discriminate|].
  apply dec_aux_nonempty. discriminate.
Qed.

Lemma strip_id (s : string) :
  all_chars (fun c => negb (is_space c)) s = true -> strip s = s.
Proof.
  intros H. unfold strip.
  assert (lstrip s = s) as ->.
  { destruct s as [|c s']; [reflexivity|].
    cbn in H |- *. destruct (is_space c); [discriminate|reflexivity]. }
  induction s as [|c s' IH]; [reflexivity|].
  cbn in H |- *. apply andb_prop in H as [Hc Hs].
  rewrite (IH Hs). destruct (is_space c); [discriminate|].
  rewrite andb_false_r. reflexivity.
Qed.

Lemma all_chars_impl (p q : ascii -> bool) (s : string) :
  (forall c, p c = true -> q c = true) ->
  all_chars p s = true -> all_chars q s = true.
Proof.
  intros Hpq. induction s as [|c s' IH]; cbn; [reflexivity|].
  intros H. apply andb_prop in H as [H1 H2]. rewrite (Hpq c H1), (IH H2). reflexivity.
Qed.

Lemma int_dec (n : Z) : 0 <= n ->
  int (dec_aux (S (Z.to_nat n)) n EmptyString) = Some n.
Proof.
  intros Hn.
  pose proof (dec_aux_digits (S (Z.to_nat n)) n EmptyString eq_refl) as Hd.
  pose proof (dec_aux_S_nonempty (Z.to_nat n) n EmptyString) as Hne.
  pose proof (int_digits_dec_aux (S (Z.to_nat n)) n EmptyString false Hn ltac:(lia)) as Hv.
  unfold int. rewrite strip_id.
  2:{ eapply all_chars_impl; [|exact Hd]. intros c Hc. rewrite digit_not_space; auto. }
  destruct (dec_aux (S (Z.to_nat n)) n EmptyString) as [|c r] eqn:E; [congruence|].
  cbn in Hd. apply andb_prop in Hd as [Hc _].
  assert (Ascii.eqb c "-" = false) as ->.
  { ascii_cases c; vm_compute in Hc |- *; congruence. }
  assert (Ascii.eqb c "+" = false) as ->.
  { ascii_cases c; vm_compute in Hc |- *; congruence. }
  rewrite Hv. reflexivity.
Qed.

(** [int (str n) = n] for every Python [int] [n]. *)
Lemma int_str (n : Z) : int (str n) = Some n.
Proof.
  unfold str. destruct (Z.ltb_spec n 0) as [Hlt|Hge].
  - unfold int.
    pose proof (dec_aux_digits (S (Z.to_nat (- n))) (- n) EmptyString eq_refl) as Hd.
    rewrite strip_id.
    2:{ cbn [all_chars]. eapply all_chars_impl; [|exact Hd].
        intros c Hc. rewrite digit_not_space; auto. }
    cbn [Ascii.eqb Bool.eqb].
    pose proof (int_dec (- n) ltac:(lia)) as Hi. unfold int in Hi.
    rewrite strip_id in Hi.
    2:{ eapply all_chars_impl; [|exact Hd]. intros c Hc. rewrite digit_not_space; auto. }
    pose proof (dec_aux_S_nonempty (Z.to_nat (- n)) (- n) EmptyString) as Hne.
    pose proof (int_digits_dec_aux (S (Z.to_nat (- n))) (- n) EmptyString false
                  ltac:(lia) ltac:(lia)) as Hv.
    rewrite Hv. cbn. f_equal. lia.
  - apply int_dec. lia.
Qed.

Lemma str_chars (n : Z) :
  all_chars (fun c => is_digit c || Ascii.eqb c "-") (str n) = true.
Proof.
  unfold str. destruct (n <? 0).
  - cbn [all_chars]. eapply all_chars_impl; [|apply dec_aux_digits; reflexivity].
    intros c ->. reflexivity.
  - eapply all_chars_impl; [|apply dec_aux_digits; reflexivity].
    intros c ->. reflexivity.
Qed.

Lemma split_app (sep : ascii) (X R : string) :
  all_chars (fun c => negb (Ascii.eqb c sep)) X = true ->
  split sep (X ++ String sep R) = X :: split sep R.
Proof.
  induction X as [|c X IH]; intros H; cbn [append split].
  - rewrite Ascii.eqb_refl. reflexivity.
  - cbn in H. apply andb_prop in H as [Hc HX].
    rewrite (IH HX). destruct (Ascii.eqb c sep); [discriminate|reflexivity].
Qed.

Lemma split_single (sep : ascii) (X : string) :
  all_chars (fun c => negb (Ascii.eqb c sep)) X = true -> split sep X = [X].
Proof.
  induction X as [|c X IH]; intros H; cbn [split]; [reflexivity|].
  cbn in H. apply andb_prop in H as [Hc HX].
  rewrite (IH HX). destruct (Ascii.eqb c sep); [discriminate|reflexivity].
Qed.

Lemma str_no_dot (n : Z) : all_chars (fun c => negb (Ascii.eqb c ".")) (str n) = true.
Proof.
  eapply all_chars_impl; [|apply str_chars].
  intros c Hc. apply orb_prop in Hc as [Hc|Hc].
  - ascii_cases c; vm_compute in Hc |- *; congruence.
  - apply Ascii.eqb_eq in Hc. subst. reflexivity.
Qed.

End PyFacts.

Module VersionFacts.
Import Py PyFacts Version.

Lemma parse_format (x y z : Z) : parse_version (format_version (x, y, z)) = Some (x, y, z).
Proof.
  unfold parse_version, format_version. cbn [append].
  rewrite (split_app "." (str x)) by apply str_no_dot.
  rewrite (split_app "." (str y)) by apply str_no_dot.
  rewrite (split_single "." (str z)) by apply str_no_dot.
  rewrite !int_str. reflexivity.
Qed.

Example parse_ex1 : parse_version "0.3.1" = Some (0, 3, 1). Proof. reflexivity. Qed.
Example parse_ex2 : parse_version " -1.+2.0_3" = Some (-1, 2, 3). Proof. reflexivity. Qed.
Example parse_ex3 : parse_version "1.2" = None. Proof. reflexivity. Qed.
Example parse_ex4 : parse_version "1.x.2" = None. Proof. reflexivity. Qed.
Example parse_ex5 : parse_version "1._2.3" = None. Proof. reflexivity. Qed.
Example bump_ex1 : bump_minor "0.3.1" = Some "0.4.0". Proof. reflexivity. Qed.
Example bump_ex2 : bump_major "9.3.1" = Some "10.0.0". Proof. reflexivity. Qed.
Example bump_ex3 : bump_patch "0.3.19" = Some "0.3.20". Proof. reflexivity. Qed.


(** C7: for all non-negative x, y, z, [bump_minor] maps x.y.z to
    x.(y+1).0, [bump_major] maps it to (x+1).0.0 and [bump_patch] maps it
    to x.y.(z+1). *)
Theorem bump_zeroing_laws (x y z : Z) (Hx : 0 <= x) (Hy : 0 <= y) (Hz : 0 <= z) :
  bump_minor (format_version (x, y, z)) = Some (format_version (x, y + 1, 0)) /\
  bump_major (format_version (x, y, z)) = Some (format_version (x + 1, 0, 0)) /\
  bump_patch (format_version (x, y, z)) = Some (format_version (x, y, z + 1)).
Proof.
  unfold bump_minor, bump_major, bump_patch. rewrite !parse_format.
  split; [|split]; reflexivity.
Qed.

Lemma bump_zeroing_laws_witness :
  (0 <= 0 /\ 0 <= 3 /\ 0 <= 1) /\
  bump_minor (format_version (0, 3, 1)) = Some (format_version (0, 3 + 1, 0)).
Proof.
  split; [lia|]. apply (bump_zeroing_laws 0 3 1); lia.
Defined.

(** C8 (counterexample): [parse_version] accepts a negative component:
    "-1.0.0" parses to (-1, 0, 0) instead of raising. *)
Lemma parse_version_accepts_negative :
  parse_version "-1.0.0" = Some (-1, 0, 0) /\ -1 < 0.
Proof. split; [reflexivity | lia]. Qed.

(** C8 (amended): [parse_version] succeeds exactly when the input splits
    at '.' into three parts each accepted by Python's [int()] (which
    admits a sign, surrounding whitespace and single underscores between
    digits), and then returns the three values; in particular every
    rendering x.y.z of integers of any sign is accepted. *)
Theorem parse_version_accepts_int_triples :
  (forall (s : string) (a b c : Z),
     parse_version s = Some (a, b, c) <->
     exists p1 p2 p3, Py.split "." s = [p1; p2; p3] /\
       Py.int p1 = Some a /\ Py.int p2 = Some b /\ Py.int p3 = Some c) /\
  (forall x y z : Z, parse_version (format_version (x, y, z)) = Some (x, y, z)).
Proof.
  split; [|exact parse_format].
  intros s a b c. unfold parse_version. split.
  - destruct (Py.split "." s) as [|p1 [|p2 [|p3 [|p4 ps]]]]; try discriminate.
    destruct (Py.int p1) eqn:E1, (Py.int p2) eqn:E2, (Py.int p3) eqn:E3;
      try discriminate.
    intros H. inversion H; subst. exists p1, p2, p3. auto.
  - intros (p1 & p2 & p3 & -> & -> & -> & ->). reflexivity.
Qed.

(** C9 (counterexample): "1.02.3" is accepted by [parse_version], but
    rendering the parsed triple gives "1.2.3". *)
Lemma parse_format_not_lossless :
  parse_version "1.02.3" = Some (1, 2, 3) /\ format_version (1, 2, 3) <> "1.02.3".
Proof. split; [reflexivity | discriminate]. Qed.

(** C9 (amended): for a string accepted by [parse_version], rendering the
    parsed triple gives back the string exactly when the string already is
    the rendering x.y.z of integers (canonical numerals: no leading zeros,
    no '+', whitespace or underscores). *)
Theorem parse_format_roundtrip (s : string) (v : version) :
  parse_version s = Some v ->
  (format_version v = s <-> exists x y z, s = format_version (x, y, z)).
Proof.
  intros Hp. split.
  - intros <-. destruct v as [[x y] z]. exists x, y, z. reflexivity.
  - intros (x & y & z & ->). rewrite parse_format in Hp.
    inversion Hp. reflexivity.
Qed.

Lemma parse_format_roundtrip_witness :
  parse_version "0.3.1" = Some (0, 3, 1) /\
  (format_version (0, 3, 1) = "0.3.1" <->
   exists x y z, "0.3.1" = format_version (x, y, z)).
Proof.
  split; [reflexivity|]. apply parse_format_roundtrip. reflexivity.
Defined.

End VersionFacts.

Module ChangelogFacts.
Import Py Re Changelog Props.



Example entry_filled :
  get_changelog_entry (Some doc_filled) = "### Added" ++ NL ++ "- Support for virtual threads".
Proof. vm_compute. reflexivity. Qed.

Example entry_empty_pending :
  get_changelog_entry (Some doc_empty_pending)
  = "## [0.3.1] - 2024-01-01" ++ NL ++ "### Added" ++ NL ++ "- Initial release of the library".
Proof. vm_compute. reflexivity. Qed.

Example update_filled :
  update_changelog_text "0.4.0" "2026-10-17" doc_filled =
  Some ("# Changelog" ++ NL ++ NL ++ version_section "0.4.0" "2026-10-17" ++ NL ++ NL
  ++ "### Added" ++ NL
  ++ "- Support for virtual threads" ++ NL ++ NL ++ "## [0.3.1] - 2024-01-01" ++ NL
  ++ "### Added" ++ NL ++ "- Initial release" ++ NL ++ NL
  ++ "[Unreleased]: https://github.com/o/r/compare/v0.4.0...HEAD" ++ NL
  ++ "[0.4.0]: https://github.com/o/r/compare/v0.3.1...v0.4.0" ++ NL
  ++ "[0.3.1]: https://github.com/o/r/releases/tag/v0.3.1" ++ NL).
Proof. vm_compute. reflexivity. Qed.

Example version_entry :
  get_version_changelog_entry "0.3.1" (Some doc_filled) =
  "### Added" ++ NL ++ "- Initial release" ++ NL
  ++ "[Unreleased]: https://github.com/o/r/compare/v0.3.1...HEAD" ++ NL
  ++ "[0.3.1]: https://github.com/o/r/releases/tag/v0.3.1".
Proof. vm_compute. reflexivity. Qed.

(** C6: [validate_changelog] accepts a changelog whose [Unreleased]
    section is empty: the section is directly followed by the heading of
    the next version, [\s*] consumes the blank line, and the lazy group
    captures the whole next section, which is longer than 20 characters. *)
Theorem validate_accepts_empty_pending :
  exists rest, doc_empty_pending = "## [Unreleased]" ++ NL ++ NL ++ rest /\
    prefix "## [" rest = true /\
    validate_changelog (Some doc_empty_pending) = true.
Proof.
  eexists. split; [reflexivity|]. split; vm_compute; reflexivity.
Qed.

End ChangelogFacts.

(** ** Facts about scanning with the [re] matchers *)
Module ReFacts.
Import Py Props PyFacts Re.

Lemma sapp_assoc (x y z : string) : (x ++ y) ++ z = x ++ y ++ z.
Proof. induction x as [|c x IH]; cbn; [reflexivity|]. now rewrite IH. Qed.

Lemma sapp_nil_r (x : string) : x ++ EmptyString = x.
Proof. induction x as [|c x IH]; cbn; [reflexivity|]. now rewrite IH. Qed.

Lemma length_sapp (x y : string) : String.length (x ++ y) = (String.length x + String.length y)%nat.
Proof. induction x as [|c x IH]; cbn; [reflexivity|]. now rewrite IH. Qed.

Lemma all_chars_app (p : ascii -> bool) (x y : string) :
  all_chars p (x ++ y) = all_chars p x && all_chars p y.
Proof.
  induction x as [|c x IH]; cbn; [reflexivity|]. rewrite IH. apply andb_assoc.
Qed.

Lemma prefix_app (p r : string) : prefix p (p ++ r) = true.
Proof.
  induction p as [|a p IH]; [destruct r; reflexivity|]. cbn.
  destruct (ascii_dec a a); [exact IH | congruence].
Qed.

Lemma drop_app (p r : string) : drop (String.length p) (p ++ r) = r.
Proof. induction p as [|a p IH]; cbn; [reflexivity|exact IH]. Qed.

(** Decomposition of an equation between two concatenations. *)
Lemma sapp_eq_sapp (x y z1 z2 : string) :
  x ++ y = z1 ++ z2 ->
  (exists w, x = z1 ++ w /\ z2 = w ++ y) \/ (exists w, z1 = x ++ w /\ y = w ++ z2).
Proof.
  revert z1. induction x as [|c x IH]; intros z1 H.
  - right. exists z1. split; [reflexivity|exact H].
  - destruct z1 as [|d z1].
    + left. exists (String c x). split; [reflexivity|]. cbn in H |- *. now symmetry.
    + cbn in H. inversion H; subst.
      destruct (IH z1 H2) as [(w & -> & ->)|(w & -> & ->)].
      * left. exists w. split; reflexivity.
      * right. exists w. split; reflexivity.
Qed.


Lemma no_match_before_app (pat X Y R : string) :
  no_match_before pat (X ++ Y) R <->
  no_match_before pat X (Y ++ R) /\ no_match_before pat Y R.
Proof.
  split.
  - intros H. split.
    + intros X1 X2 -> Hne. rewrite <- sapp_assoc. apply (H X1 (X2 ++ Y)).
      * apply sapp_assoc.
      * destruct X2; [congruence|discriminate].
    + intros Y1 Y2 -> Hne. apply (H (X ++ Y1) Y2); [now rewrite sapp_assoc|exact Hne].
  - intros [HX HY] Z1 Z2 HZ Hne.
    destruct (sapp_eq_sapp _ _ _ _ HZ) as [(w & Hx & Hz)|(w & Hz & Hy)].
    + subst Z2. destruct w as [|a w].
      * cbn. apply (HY EmptyString Y); [reflexivity|exact Hne].
      * rewrite sapp_assoc. apply (HX Z1 (String a w)); [exact Hx|discriminate].
    + apply (HY w Z2); assumption.
Qed.



Lemma conflict_prefix (p s r : string) : conflict p s = true -> prefix p (s ++ r) = false.
Proof.
  revert s. induction p as [|a p IH]; intros s H; [discriminate|].
  destruct s as [|b s]; [discriminate|]. cbn in H |- *.
  destruct (Ascii.eqb_spec a b) as [->|Hab].
  - destruct (ascii_dec b b); [apply IH; exact H|congruence].
  - destruct (ascii_dec a b); [congruence|reflexivity].
Qed.

Lemma nowhere_within_ok (pat X R : string) :
  nowhere_within pat X = true -> no_match_before pat X R.
Proof.
  induction X as [|c X IH]; intros H X1 X2 HX Hne.
  - destruct X1, X2; cbn in HX; congruence.
  - cbn in H. apply andb_prop in H as [H1 H2].
    destruct X1 as [|d X1].
    + cbn in HX. subst X2. cbn [append]. apply (conflict_prefix _ (String c X)). exact H1.
    + cbn in HX. inversion HX; subst. apply (IH H2 X1 X2); auto.
Qed.

Lemma no_match_before_head (pat X R : string) (h : ascii) (pat' : string) :
  pat = String h pat' -> all_chars (fun c => negb (Ascii.eqb c h)) X = true ->
  no_match_before pat X R.
Proof.
  intros -> HX X1 X2 -> Hne. destruct X2 as [|c X2]; [congruence|].
  rewrite all_chars_app in HX. apply andb_prop in HX as [_ HX].
  cbn in HX |- *. apply andb_prop in HX as [Hc _].
  destruct (ascii_dec h c) as [->|]; [|reflexivity].
  rewrite Ascii.eqb_refl in Hc. discriminate.
Qed.

Lemma prefix_cont (pat X : string) (c : ascii) (R R' : string) :
  all_chars (fun d => negb (Ascii.eqb d c)) pat = true ->
  prefix pat (X ++ String c R) = prefix pat (X ++ String c R').
Proof.
  revert pat. induction X as [|a X IH]; intros pat H.
  - destruct pat as [|d pat]; [reflexivity|]. cbn in H |- *.
    apply andb_prop in H as [Hd _].
    destruct (ascii_dec d c) as [->|]; [|reflexivity].
    rewrite Ascii.eqb_refl in Hd. discriminate.
  - destruct pat as [|d pat]; [reflexivity|]. cbn in H |- *.
    apply andb_prop in H as [_ H].
    destruct (ascii_dec d a); [apply IH; exact H|reflexivity].
Qed.

Lemma no_match_before_cont (pat X : string) (c : ascii) (R R' : string) :
  all_chars (fun d => negb (Ascii.eqb d c)) pat = true ->
  no_match_before pat X (String c R) -> no_match_before pat X (String c R').
Proof.
  intros Hp H X1 X2 HX Hne. rewrite <- (H X1 X2 HX Hne). apply prefix_cont. exact Hp.
Qed.

Lemma search_skip {R : Type} (at_pos : string -> option R) (pat X Rest : string) :
  (forall s, prefix pat s = false -> at_pos s = None) ->
  no_match_before pat X Rest ->
  search at_pos (X ++ Rest) = search at_pos Rest.
Proof.
  intros Hat. induction X as [|c X IH]; intros H; [reflexivity|].
  cbn [append]. cbn [search].
  pose proof (H EmptyString (String c X) eq_refl ltac:(discriminate)) as H0.
  cbn [append] in H0. rewrite (Hat _ H0).
  apply IH. intros X1 X2 -> Hne. apply (H (String c X1) X2); [reflexivity|exact Hne].
Qed.

Lemma sub_go_skip (at_pos : string -> option nat) repl count (X R : string) :
  sub_go at_pos repl count (String.length X) (X ++ R) = sub_go at_pos repl count O R.
Proof. induction X as [|c X IH]; [reflexivity|exact IH]. Qed.

Lemma sub_go_nomatch (at_pos : string -> option nat) (pat : string) repl count (X R : string) :
  (forall s, prefix pat s = false -> at_pos s = None) ->
  no_match_before pat X R ->
  sub_go at_pos repl count O (X ++ R) = X ++ sub_go at_pos repl count O R.
Proof.
  intros Hat. induction X as [|c X IH]; intros H; [reflexivity|].
  cbn [append sub_go].
  pose proof (H EmptyString (String c X) eq_refl ltac:(discriminate)) as H0.
  cbn [append] in H0. rewrite (Hat _ H0).
  rewrite IH.
  - destruct count as [[|n]|]; reflexivity.
  - intros X1 X2 -> Hne. apply (H (String c X1) X2); [reflexivity|exact Hne].
Qed.

Lemma sub_go_match (at_pos : string -> option nat) repl count (M R : string) :
  M <> EmptyString -> count <> Some O ->
  at_pos (M ++ R) = Some (String.length M) ->
  sub_go at_pos repl count O (M ++ R) = repl ++ sub_go at_pos repl (option_map pred count) O R.
Proof.
  intros Hne Hc Hat. destruct M as [|c M]; [congruence|].
  cbn [append sub_go]. cbn [append] in Hat. rewrite Hat.
  destruct count as [[|n]|]; [congruence| |];
    cbn [pred String.length]; rewrite sub_go_skip; reflexivity.
Qed.

Lemma sub_go_count0 (at_pos : string -> option nat) repl (s : string) :
  sub_go at_pos repl (Some O) O s = s.
Proof. induction s as [|c s IH]; cbn; [reflexivity|]. now rewrite IH. Qed.

Lemma expand_template_plain (t : string) :
  all_chars (fun c => negb (Ascii.eqb c "\")) t = true -> expand_template t = Some t.
Proof.
  induction t as [|c t IH]; intros H; [reflexivity|].
  cbn in H |- *. apply andb_prop in H as [Hc Ht].
  destruct (Ascii.eqb c "\"); [discriminate|]. rewrite (IH Ht). reflexivity.
Qed.

Lemma star_cons {R : Type} (cls : ascii -> bool) (k : string -> string -> option R)
    (acc : string) (c : ascii) (s : string) :
  star cls k acc (String c s) =
  if cls c then
    match star cls k (acc ++ String c EmptyString) s with
    | Some r => Some r
    | None => k acc (String c s)
    end
  else k acc (String c s).
Proof. reflexivity. Qed.

(** Greedy [C*] first consumes every character of the class. *)
Lemma star_consume {R : Type} (cls : ascii -> bool) (k : string -> string -> option R)
    (X Y acc : string) (r : R) :
  all_chars cls X = true -> star cls k (acc ++ X) Y = Some r ->
  star cls k acc (X ++ Y) = Some r.
Proof.
  revert acc. induction X as [|c X IH]; intros acc HX H.
  - rewrite sapp_nil_r in H. exact H.
  - cbn in HX. apply andb_prop in HX as [Hc HX]. cbn [append]. rewrite star_cons, Hc.
    rewrite (IH (acc ++ String c EmptyString) HX); [reflexivity|].
    rewrite sapp_assoc. exact H.
Qed.

(** ... and then gives characters back one at a time. *)
Lemma star_backtrack {R : Type} (cls : ascii -> bool) (k : string -> string -> option R)
    (c : ascii) (X Y acc : string) :
  all_chars cls (String c X) = true ->
  star cls k (acc ++ String c X) Y = None ->
  (forall X1 X2, String c X = X1 ++ X2 -> X1 <> EmptyString -> k (acc ++ X1) (X2 ++ Y) = None) ->
  star cls k acc (String c X ++ Y) = k acc (String c X ++ Y).
Proof.
  revert c acc. induction X as [|d X IH]; intros c acc HX Hs Hk.
  - cbn in HX. apply andb_prop in HX as [Hc _]. cbn [append]. rewrite star_cons, Hc.
    rewrite Hs. reflexivity.
  - cbn in HX. apply andb_prop in HX as [Hc HX]. cbn [append]. rewrite star_cons, Hc.
    cbn [append] in IH. rewrite (IH d (acc ++ String c EmptyString)).
    + pose proof (Hk (String c EmptyString) (String d X) eq_refl ltac:(discriminate)) as H1.
      cbn [append] in H1. rewrite H1. reflexivity.
    + exact HX.
    + rewrite sapp_assoc. exact Hs.
    + intros X1 X2 HX12 Hne. rewrite sapp_assoc.
      apply (Hk (String c X1) X2); [cbn; now rewrite HX12|discriminate].
Qed.

End ReFacts.

Module ChangelogProofs.
Import Py Props PyFacts Re ReFacts Changelog.

Lemma literal_at_none (pat s : string) : prefix pat s = false -> literal_at pat s = None.
Proof. unfold literal_at. intros ->. reflexivity. Qed.

Lemma compare_link_at_none (s : string) :
  prefix "[Unreleased]: " s = false -> compare_link_at s = None.
Proof. unfold compare_link_at. intros ->. reflexivity. Qed.

Lemma unreleased_link_at_none (s : string) :
  prefix "[Unreleased]: " s = false -> unreleased_link_at s = None.
Proof. unfold unreleased_link_at. intros ->. reflexivity. Qed.

Lemma digit_or_dot_not (d : ascii) (c : ascii) :
  digit_or_dot c = true -> digit_or_dot d = false -> Ascii.eqb c d = false.
Proof.
  intros Hc Hd. destruct (Ascii.eqb_spec c d) as [->|]; [congruence|reflexivity].
Qed.

Lemma version_section_split (version today : string) :
  version_section version today =
  ("## [Unreleased]" ++ NL ++ NL ++ "### Added" ++ NL ++ "### Changed" ++ NL
   ++ "### Deprecated" ++ NL ++ "### Removed" ++ NL ++ "### Fixed" ++ NL
   ++ "### Security" ++ NL ++ NL ++ "## ") ++ String "[" (version ++ "] - " ++ today).
Proof. reflexivity. Qed.

(** The text inserted by [update_changelog] contains no [[Unreleased]: ]. *)
Lemma version_section_no_link (version today R : string) :
  all_chars digit_or_dot version = true ->
  all_chars (fun c => negb (Ascii.eqb c "[")) today = true ->
  no_match_before "[Unreleased]: " (version_section version today) R.
Proof.
  intros Hv Ht. rewrite version_section_split.
  apply no_match_before_app. split; [apply nowhere_within_ok; vm_compute; reflexivity|].
  change (String "[" (version ++ "] - " ++ today)) with ("[" ++ (version ++ "] - " ++ today)).
  apply no_match_before_app. split.
  - intros X1 X2 HX Hne. destruct X1 as [|a X1].
    + cbn in HX. subst X2. cbn [append].
      destruct version as [|v0 version]; [reflexivity|].
      cbn in Hv. apply andb_prop in Hv as [Hv0 _]. cbn [append prefix].
      destruct (ascii_dec "[" "["); [|congruence].
      destruct (ascii_dec "U" v0) as [<-|]; [discriminate|reflexivity].
    + destruct X1, X2; cbn in HX; try discriminate; congruence.
  - eapply no_match_before_head; [reflexivity|].
    rewrite !all_chars_app, Ht, andb_true_r.
    rewrite (all_chars_impl digit_or_dot (fun c => negb (Ascii.eqb c "[")) version); [reflexivity| |exact Hv].
    intros c Hc. rewrite (digit_or_dot_not "[" c Hc eq_refl). reflexivity.
Qed.

Lemma version_section_head (version today Z : string) :
  exists R, version_section version today ++ Z = String "#" R.
Proof. eexists. reflexivity. Qed.

Lemma plus_cons {R : Type} (cls : ascii -> bool) (k : string -> string -> option R)
    (c : ascii) (s : string) :
  plus cls k (String c s) = if cls c then star cls k (String c EmptyString) s else None.
Proof. reflexivity. Qed.

Lemma compare_path_no_restart (P C : string) :
  all_chars digit_or_dot P = true ->
  no_match_before "/compare/v" ("compare/v" ++ P ++ "...HEAD") C.
Proof.
  intros Hp. apply no_match_before_app. split; [apply nowhere_within_ok; vm_compute; reflexivity|].
  eapply no_match_before_head; [reflexivity|].
  rewrite all_chars_app.
  rewrite (all_chars_impl digit_or_dot (fun c => negb (Ascii.eqb c "/")) P); [reflexivity| |exact Hp].
  intros c Hc. rewrite (digit_or_dot_not "/" c Hc eq_refl). reflexivity.
Qed.

Lemma line_end_cases (C : string) :
  (C = EmptyString \/ exists C', C = NL ++ C') ->
  C = EmptyString \/ exists C', C = String nl C'.
Proof. intros [->|[C' ->]]; [left; reflexivity|right; exists C'; reflexivity]. Qed.

(** The [[Unreleased]: ...] link line matches the search of
    [update_changelog] with the base url and the previous version as its
    groups. *)
Lemma compare_link_at_link (U P C : string) :
  U <> EmptyString -> all_chars not_nl U = true ->
  P <> EmptyString -> all_chars digit_or_dot P = true ->
  (C = EmptyString \/ exists C', C = String nl C') ->
  compare_link_at ("[Unreleased]: " ++ U ++ "/compare/v" ++ P ++ "...HEAD" ++ C)
  = Some (U, P).
Proof.
  intros HU HUc HP HPc HC. unfold compare_link_at. rewrite prefix_app.
  change 14%nat with (String.length "[Unreleased]: "). rewrite drop_app.
  destruct U as [|u U']; [congruence|]. cbn [all_chars] in HUc.
  apply andb_prop in HUc as [Hu HU'].
  cbn [append]. rewrite plus_cons, Hu.
  apply star_consume; [exact HU'|].
  change (String u EmptyString ++ U') with (String u U').
  match goal with |- star _ ?k _ _ = _ => set (K := k) end.
  assert (Hend : prefix "/compare/v" C = false)
    by (destruct HC as [->|[C' ->]]; reflexivity).
  assert (Hk : K (String u U') ("/compare/v" ++ P ++ "...HEAD" ++ C) = Some (String u U', P)).
  { unfold K. rewrite prefix_app.
    change 10%nat with (String.length "/compare/v"). rewrite drop_app.
    destruct P as [|p P']; [congruence|]. cbn [all_chars] in HPc.
    apply andb_prop in HPc as [Hp HP'].
    cbn [append]. rewrite plus_cons, Hp.
    apply star_consume; [exact HP'|].
    destruct HC as [->|[C' ->]]; vm_compute; reflexivity. }
  assert (Hbt : star not_nl K (String u U') (String "/" ("compare/v" ++ P ++ "...HEAD") ++ C)
                = K (String u U') (String "/" ("compare/v" ++ P ++ "...HEAD") ++ C)).
  { apply star_backtrack.
    - cbn [all_chars]. rewrite !all_chars_app.
      rewrite (all_chars_impl digit_or_dot not_nl P); [reflexivity| |exact HPc].
      intros c Hc. unfold not_nl. rewrite (digit_or_dot_not nl c Hc eq_refl). reflexivity.
    - unfold K. destruct HC as [->|[C' ->]]; cbn; [reflexivity|].
      destruct (ascii_dec "/" nl); [discriminate|reflexivity].
    - intros X1 X2 HX Hne. unfold K. cbv beta.
      destruct X1 as [|x1 X1]; [congruence|]. cbn in HX. inversion HX; subst x1.
      destruct X2 as [|x2 X2].
      + cbn [append]. rewrite Hend. reflexivity.
      + rewrite (compare_path_no_restart P C HPc X1 (String x2 X2) H1); [reflexivity|discriminate]. }
  cbn [append] in Hbt, Hk |- *. rewrite !sapp_assoc in Hbt. cbn [append] in Hbt.
  rewrite Hbt. exact Hk.
Qed.

(** The [[Unreleased]: .+] pattern of the second [re.sub] matches the
    whole link line. *)
Lemma unreleased_link_at_link (L C : string) :
  L <> EmptyString -> all_chars not_nl L = true ->
  (C = EmptyString \/ exists C', C = String nl C') ->
  unreleased_link_at ("[Unreleased]: " ++ L ++ C)
  = Some (String.length ("[Unreleased]: " ++ L)).
Proof.
  intros HL HLc HC. unfold unreleased_link_at. rewrite prefix_app.
  change 14%nat with (String.length "[Unreleased]: ") at 2. rewrite drop_app.
  destruct L as [|l L']; [congruence|]. cbn [all_chars] in HLc.
  apply andb_prop in HLc as [Hl HL'].
  cbn [append]. rewrite plus_cons, Hl.
  apply star_consume; [exact HL'|].
  destruct HC as [->|[C' ->]]; [reflexivity|].
  rewrite star_cons. reflexivity.
Qed.

Lemma search_here {R : Type} (at_pos : string -> option R) (s : string) (r : R) :
  at_pos s = Some r -> search at_pos s = Some r.
Proof. intros H. destruct s; cbn; rewrite H; reflexivity. Qed.

Lemma all_chars_and (p q : ascii -> bool) (s : string) :
  all_chars (fun c => p c && q c) s = true ->
  all_chars p s = true /\ all_chars q s = true.
Proof.
  intros H. split; (eapply all_chars_impl; [|exact H]);
    intros c Hc; apply andb_prop in Hc as [? ?]; assumption.
Qed.

Lemma digit_or_dot_no_backslash (s : string) :
  all_chars digit_or_dot s = true -> all_chars (fun c => negb (Ascii.eqb c "\")) s = true.
Proof.
  apply all_chars_impl. intros c Hc. rewrite (digit_or_dot_not "\" c Hc eq_refl). reflexivity.
Qed.

Lemma no_nl_no_compare (U : string) :
  all_chars not_nl U = true -> all_chars not_nl ("/compare/v" ++ U) = true.
Proof. intros H. rewrite all_chars_app, H. reflexivity. Qed.

(** C4: [update_changelog] on a changelog whose first [## [Unreleased]]
    heading is followed (after the rest [B] of its line and the body) by
    the first [[Unreleased]: ] line, a compare link
    [[Unreleased]: U/compare/vP...HEAD] that ends the line.  The heading
    becomes [## [version] - today], with a fresh [## [Unreleased]] heading
    and the empty subsections Added, Changed, Deprecated, Removed, Fixed
    and Security inserted just above it; the compare link is rewritten to
    [v<version>...HEAD] and followed by the new link
    [[version]: U/compare/vP...v<version>]; nothing else changes. *)
Theorem update_changelog_promotes (version today A B U P C : string) :
  all_chars digit_or_dot version = true ->
  all_chars (fun c => negb (Ascii.eqb c "[") && negb (Ascii.eqb c "\")) today = true ->
  U <> EmptyString -> all_chars (fun c => not_nl c && negb (Ascii.eqb c "\")) U = true ->
  P <> EmptyString -> all_chars digit_or_dot P = true ->
  (C = EmptyString \/ exists C', C = String nl C') ->
  no_match_before "## [Unreleased]" A
    ("## [Unreleased]" ++ B ++ NL ++ "[Unreleased]: " ++ U ++ "/compare/v" ++ P ++ "...HEAD" ++ C) ->
  no_match_before "[Unreleased]: " (A ++ "## [Unreleased]" ++ B ++ NL)
    ("[Unreleased]: " ++ U ++ "/compare/v" ++ P ++ "...HEAD" ++ C) ->
  no_match_before "[Unreleased]: " C EmptyString ->
  update_changelog_text version today
    (A ++ "## [Unreleased]" ++ B ++ NL ++ "[Unreleased]: " ++ U ++ "/compare/v" ++ P ++ "...HEAD" ++ C)
  = Some (A ++ version_section version today ++ B ++ NL
          ++ "[Unreleased]: " ++ U ++ "/compare/v" ++ version ++ "...HEAD" ++ NL
          ++ "[" ++ version ++ "]: " ++ U ++ "/compare/v" ++ P ++ "...v" ++ version ++ C).
Proof.
  intros Hv Ht HU HUc HP HPc HC HA1 HA2 HCn.
  apply all_chars_and in Ht as [Ht1 Ht2]. apply all_chars_and in HUc as [HU1 HU2].
  pose proof (digit_or_dot_no_backslash _ Hv) as Hv2.
  pose proof (digit_or_dot_no_backslash _ HPc) as HP2.
  set (L := "[Unreleased]: " ++ U ++ "/compare/v" ++ P ++ "...HEAD").
  assert (HL : forall Z, L ++ Z = "[Unreleased]: " ++ U ++ "/compare/v" ++ P ++ "...HEAD" ++ Z)
    by (intros Z; unfold L; rewrite !sapp_assoc; reflexivity).
  rewrite <- (HL C) in HA1, HA2 |- *.
  set (vs := version_section version today).
  unfold update_changelog_text, sub.
  rewrite (expand_template_plain (version_section version today)).
  2:{ unfold version_section. rewrite !all_chars_app, Hv2, Ht2. reflexivity. }
  fold vs.
  rewrite (sub_go_nomatch _ "## [Unreleased]" _ _ A _ (literal_at_none _) HA1).
  rewrite (sub_go_match _ _ _ "## [Unreleased]"); [|discriminate|discriminate|].
  2:{ unfold literal_at. rewrite prefix_app. reflexivity. }
  change (option_map pred (Some 1%nat)) with (Some 0%nat). rewrite sub_go_count0.
  replace (A ++ vs ++ B ++ NL ++ L ++ C) with ((A ++ vs ++ B ++ NL) ++ L ++ C)
    by (rewrite !sapp_assoc; reflexivity).
  assert (HX : no_match_before "[Unreleased]: " (A ++ vs ++ B ++ NL) (L ++ C)).
  { apply no_match_before_app. apply no_match_before_app in HA2 as [HA2a HA2b].
    apply no_match_before_app in HA2b as [_ HB].
    split; [|apply no_match_before_app; split; [apply version_section_no_link; assumption|exact HB]].
    destruct (version_section_head version today (B ++ NL ++ L ++ C)) as [R HR].
    fold vs in HR. rewrite !sapp_assoc, HR.
    change ("## [Unreleased]" ++ B ++ NL ++ L ++ C)
      with (String "#" ("# [Unreleased]" ++ B ++ NL ++ L ++ C)) in HA2a.
    eapply no_match_before_cont; [reflexivity|exact HA2a]. }
  rewrite (search_skip _ "[Unreleased]: " _ _ (compare_link_at_none) HX).
  rewrite (search_here _ _ (U, P)).
  2:{ rewrite HL. apply compare_link_at_link; assumption. }
  cbv beta iota zeta.
  rewrite expand_template_plain.
  2:{ rewrite !all_chars_app, Hv2, HU2, HP2. reflexivity. }
  rewrite (sub_go_nomatch _ "[Unreleased]: " _ _ _ _ (unreleased_link_at_none) HX).
  rewrite (sub_go_match _ _ _ L); [|unfold L; discriminate|discriminate|].
  2:{ unfold L. rewrite sapp_assoc. apply unreleased_link_at_link.
      - destruct U; [congruence|discriminate].
      - rewrite !all_chars_app, HU1.
        rewrite (all_chars_impl digit_or_dot not_nl P); [reflexivity| |exact HPc].
        intros c Hc. unfold not_nl. rewrite (digit_or_dot_not nl c Hc eq_refl). reflexivity.
      - exact HC. }
  cbn [option_map].
  rewrite <- (sapp_nil_r C) at 1.
  rewrite (sub_go_nomatch _ "[Unreleased]: " _ _ C _ (unreleased_link_at_none) HCn).
  cbn [sub_go]. rewrite sapp_nil_r, !sapp_assoc. reflexivity.
Qed.

Lemma update_changelog_promotes_witness :
  update_changelog_text "0.4.0" "2024-05-01"
    (("# Changelog" ++ NL ++ NL) ++ "## [Unreleased]"
     ++ (NL ++ "### Added" ++ NL ++ "- Parse lock info of virtual threads" ++ NL) ++ NL
     ++ "[Unreleased]: " ++ "https://github.com/parttimenerd/jthreaddump" ++ "/compare/v"
     ++ "0.3.1" ++ "...HEAD" ++ NL)
  = Some (("# Changelog" ++ NL ++ NL) ++ version_section "0.4.0" "2024-05-01"
          ++ (NL ++ "### Added" ++ NL ++ "- Parse lock info of virtual threads" ++ NL) ++ NL
          ++ "[Unreleased]: " ++ "https://github.com/parttimenerd/jthreaddump" ++ "/compare/v"
          ++ "0.4.0" ++ "...HEAD" ++ NL
          ++ "[" ++ "0.4.0" ++ "]: " ++ "https://github.com/parttimenerd/jthreaddump"
          ++ "/compare/v" ++ "0.3.1" ++ "...v" ++ "0.4.0" ++ NL).
Proof.
  apply update_changelog_promotes;
    try (apply nowhere_within_ok; vm_compute; reflexivity);
    try (vm_compute; reflexivity); try discriminate.
  right. exists EmptyString. reflexivity.
Defined.

End ChangelogProofs.

(** ** The release pipeline *)
Module PipelineProofs.
Import Py Props Re ReFacts Changelog ChangelogProofs Release Trace Samples.

(** *** The log *)

Lemma no_fail_app (l l' : list event) : no_fail (l ++ l') = no_fail l && no_fail l'.
Proof. apply forallb_app. Qed.

Lemma no_git_app (l l' : list event) : no_git (l ++ l') = no_git l && no_git l'.
Proof. apply forallb_app. Qed.

Lemma no_ran_app (l l' : list event) : no_ran (l ++ l') = no_ran l && no_ran l'.
Proof. apply forallb_app. Qed.

Lemma bak_writes_app (l l' : list event) : bak_writes (l ++ l') = bak_writes l && bak_writes l'.
Proof. apply forallb_app. Qed.

Lemma tests_failed_app (l l' : list event) :
  tests_failed (l ++ l') = tests_failed l || tests_failed l'.
Proof. apply existsb_app. Qed.

Lemma no_ran_no_fail (l : list event) : no_ran l = true -> no_fail l = true.
Proof.
  induction l as [|e l IH]; [reflexivity|].
  destruct e as [c st|p|]; cbn; [discriminate| |]; apply IH.
Qed.

Lemma no_ran_no_git (l : list event) : no_ran l = true -> no_git l = true.
Proof.
  induction l as [|e l IH]; [reflexivity|].
  destruct e as [c st|p|]; cbn; [discriminate| |]; apply IH.
Qed.

Lemma no_ran_tests (l : list event) : no_ran l = true -> tests_failed l = false.
Proof.
  induction l as [|e l IH]; [reflexivity|].
  destruct e as [c st|p|]; cbn; [discriminate| |]; apply IH.
Qed.

Lemma bak_writes_no_ran (l : list event) : bak_writes l = true -> no_ran l = true.
Proof.
  induction l as [|e l IH]; [reflexivity|].
  destruct e as [c st|[f|f|]|]; cbn; try discriminate; apply IH.
Qed.

Lemma ordered_from_true (l : list event) : ordered_from true l = true.
Proof. induction l as [|e l IH]; [reflexivity|]. destruct e as [|[]|]; cbn; auto. Qed.

Lemma bak_writes_ordered (b : bool) (l : list event) :
  bak_writes l = true -> ordered_from b l = true.
Proof.
  induction l as [|e l IH]; [reflexivity|].
  destruct e as [c st|[f|f|]|]; cbn; try discriminate; apply IH.
Qed.

Lemma ordered_app (b : bool) (l l' : list event) :
  ordered_from b l = true -> ordered_from b l' = true -> ordered_from b (l ++ l') = true.
Proof.
  revert b. induction l as [|e l IH]; intros b H H'; [exact H'|].
  destruct e as [c st|[f|f|]|]; cbn in H |- *; try (apply IH; assumption).
  - destruct b; cbn in H |- *; [apply IH; assumption|discriminate].
  - apply ordered_from_true.
Qed.

Lemma ordered_after (b : bool) (l l' : list event) :
  In BackedUp l -> ordered_from b l = true -> ordered_from b (l ++ l') = true.
Proof.
  revert b. induction l as [|e l IH]; intros b Hin H; [destruct Hin|].
  destruct Hin as [->|Hin]; [apply ordered_from_true|].
  destruct e as [c st|[f|f|]|]; cbn in H |- *;
    first [apply IH; assumption
          | destruct b; cbn in H |- *; [apply IH; assumption|discriminate]
          | apply ordered_from_true].
Qed.

Lemma ordered_prefix (b : bool) (l : list event) :
  ordered_from b l = true ->
  forall l1 f l2, l = (l1 ++ Wrote (Src f) :: l2)%list -> b = true \/ In BackedUp l1.
Proof.
  revert b. induction l as [|e l IH]; intros b H l1 f l2 Hl.
  - destruct l1; discriminate.
  - destruct l1 as [|e1 l1].
    + cbn in Hl. injection Hl as -> ->. cbn in H.
      destruct b; [left; reflexivity|discriminate].
    + cbn in Hl. injection Hl as -> Hl.
      destruct e1 as [c st|[g|g|]|]; cbn in H.
      * destruct (IH b H l1 f l2 Hl) as [?|?]; [left|right; right]; assumption.
      * destruct b; [left; reflexivity|discriminate].
      * destruct (IH b H l1 f l2 Hl) as [?|?]; [left|right; right]; assumption.
      * destruct (IH b H l1 f l2 Hl) as [?|?]; [left|right; right]; assumption.
      * right; left; reflexivity.
Qed.

Lemma cmd_eqb_eq (a b : list string) : cmd_eqb a b = true -> a = b.
Proof.
  revert b. induction a as [|x a IH]; intros [|y b] H; try discriminate; [reflexivity|].
  cbn in H. apply andb_prop in H as [H1 H2].
  apply String.eqb_eq in H1. rewrite H1, (IH b H2). reflexivity.
Qed.

Lemma no_fail_tests (l : list event) : no_fail l = true -> tests_failed l = false.
Proof.
  induction l as [|e l IH]; [reflexivity|]. intros H. cbn in H.
  apply andb_prop in H as [H1 H2].
  destruct e as [c [z|]|p|]; cbn; try (apply IH; exact H2).
  destruct (cmd_eqb c tests_cmd) eqn:Hc; cbn; [|apply IH; exact H2].
  apply cmd_eqb_eq in Hc. subst c. cbn in H1. rewrite H1. cbn. apply IH. exact H2.
Qed.

Lemma no_fail_In (l : list event) (c : list string) (z : Z) :
  no_fail l = true -> In (Ran c (Some z)) l -> required_step c = true -> z = 0.
Proof.
  unfold no_fail. rewrite forallb_forall. intros H Hin Hr.
  specialize (H _ Hin). cbn in H. rewrite Hr in H. cbn in H. apply Z.eqb_eq. exact H.
Qed.

Lemma no_git_In (l : list event) (c : list string) (st : option Z) :
  no_git l = true -> In (Ran c st) l -> is_git c = false.
Proof.
  unfold no_git. rewrite forallb_forall. intros H Hin.
  specialize (H _ Hin). cbn in H. destruct (is_git c); [discriminate|reflexivity].
Qed.

Lemma tests_failed_In (l : list event) (z : Z) :
  In (Ran tests_cmd (Some z)) l -> z <> 0 -> tests_failed l = true.
Proof.
  intros Hin Hz. unfold tests_failed. apply existsb_exists.
  exists (Ran tests_cmd (Some z)). split; [exact Hin|].
  cbn. rewrite (proj2 (Z.eqb_neq z 0) Hz). reflexivity.
Qed.

(** *** Rules for [step] *)
Section Steps.
Context (E : exn -> state -> Prop).

Lemma step_bind {A B : Type} (P : state -> Prop) (m : M A) (k : A -> M B)
    (R : A -> state -> Prop) (Q : B -> state -> Prop) :
  step E P m R -> (forall a, step E (R a) (k a) Q) -> step E P (bind m k) Q.
Proof.
  intros H1 H2 s Hs. specialize (H1 s Hs). unfold bind.
  destruct (m s) as [[a|e] s']; [exact (H2 a s' H1)|exact H1].
Qed.

Lemma step_ret {A : Type} (P : state -> Prop) (a : A) (Q : A -> state -> Prop) :
  (forall s, P s -> Q a s) -> step E P (ret a) Q.
Proof. intros H s Hs. exact (H s Hs). Qed.

Lemma step_raise {A : Type} (P : state -> Prop) (e : exn) (Q : A -> state -> Prop) :
  (forall s, P s -> E e s) -> step E P (raise e) Q.
Proof. intros H s Hs. exact (H s Hs). Qed.

Lemma step_weaken {A : Type} (P P' : state -> Prop) (m : M A) (Q Q' : A -> state -> Prop) :
  (forall s, P s -> P' s) -> (forall a s, Q' a s -> Q a s) -> step E P' m Q' -> step E P m Q.
Proof.
  intros HP HQ H s Hs. specialize (H s (HP s Hs)).
  destruct (m s) as [[a|e] s']; [exact (HQ a s' H)|exact H].
Qed.

End Steps.

(** *** The invariants along the steps *)
Section Invariants.
Variable s0 : state.

Local Abbreviation keeps ng m := (step (Post s0) (Run s0 ng) m (fun _ => Run s0 ng)).

Lemma Run_Post (ng : bool) (s : state) (e : exn) : Run s0 ng s -> Post s0 e s.
Proof.
  intros (HB & Hf & Ho & Hin & _).
  split; [split; [exact Ho|intros _; exact Hin]|left; exact Hf].
Qed.

Lemma Run_forget (s : state) : Run s0 true s -> Run s0 false s.
Proof.
  intros (HB & Hf & Ho & Hin & _). unfold Run.
  split; [exact HB|]. split; [exact Hf|]. split; [exact Ho|]. split; [exact Hin|].
  discriminate.
Qed.

Lemma BK_frame (s s' : state) :
  backups_created s' = backups_created s -> bakdir s' = bakdir s ->
  (forall f, fs s' (Bak f) = fs s (Bak f)) -> BK s0 s -> BK s0 s'.
Proof.
  intros H1 H2 H3 (B1 & B2 & B3). split; [congruence|split; [congruence|]].
  intros f Hf. rewrite H3. apply B3, Hf.
Qed.

Lemma Run_ext (ng : bool) (s s' : state) (l : list event) :
  Run s0 ng s -> BK s0 s' -> events s' = (events s ++ l)%list -> no_ran l = true ->
  Run s0 ng s'.
Proof.
  intros (HB & Hf & Ho & Hin & Hg) HB' He Hl. unfold Run. rewrite He.
  refine (conj HB' (conj _ (conj _ (conj _ _)))).
  - rewrite no_fail_app, Hf, (no_ran_no_fail _ Hl). reflexivity.
  - apply ordered_after; assumption.
  - apply in_or_app. left. exact Hin.
  - intros Hng. rewrite no_git_app, (Hg Hng), (no_ran_no_git _ Hl). reflexivity.
Qed.

(** A change of state that touches neither the log, the flags nor the
    declared files and their backups. *)
Lemma Run_frame (ng : bool) (s s' : state) :
  events s' = events s -> backups_created s' = backups_created s -> bakdir s' = bakdir s ->
  (forall f, fs s' (Src f) = fs s (Src f)) -> (forall f, fs s' (Bak f) = fs s (Bak f)) ->
  Run s0 ng s -> Run s0 ng s'.
Proof.
  intros He Hc Hd HS HB HR. apply (Run_ext ng s s' [] HR).
  - apply (BK_frame s); try assumption. apply HR.
  - rewrite app_nil_r. exact He.
  - reflexivity.
Qed.

Lemma Post_frame (e : exn) (s s' : state) :
  events s' = events s -> backups_created s' = backups_created s ->
  (forall f, fs s' (Src f) = fs s (Src f)) -> Post s0 e s -> Post s0 e s'.
Proof.
  intros He Hc HS ((Ho & Hin) & HG). unfold Post, Ord, Restored. rewrite He, Hc.
  split; [split; assumption|].
  destruct HG as [HG|(He' & HR & Ht)]; [left; exact HG|right].
  split; [exact He'|split; [|exact Ht]]. intros f Hf. rewrite HS. apply HR, Hf.
Qed.

Lemma keeps_bind (ng : bool) {A B : Type} (m : M A) (k : A -> M B) :
  keeps ng m -> (forall a, keeps ng (k a)) -> keeps ng (bind m k).
Proof. intros H1 H2. eapply step_bind; [exact H1|exact H2]. Qed.

Lemma keeps_ret (ng : bool) {A : Type} (a : A) : keeps ng (ret a).
Proof. apply step_ret. auto. Qed.

Lemma keeps_raise (ng : bool) {A : Type} (e : exn) : keeps ng (@raise A e).
Proof. apply step_raise. intros s Hs. eapply Run_Post. exact Hs. Qed.

Lemma keeps_get (ng : bool) : keeps ng get.
Proof. intros s Hs. exact Hs. Qed.

Lemma keeps_path_exists (ng : bool) (p : path) : keeps ng (path_exists p).
Proof. intros s Hs. exact Hs. Qed.

Lemma keeps_read_text (ng : bool) (p : path) : keeps ng (read_text p).
Proof.
  intros s Hs. unfold read_text. destruct (fs s p); [exact Hs|eapply Run_Post; exact Hs].
Qed.

Lemma keeps_input (ng : bool) : keeps ng input.
Proof.
  intros s Hs. unfold input. destruct (stdin s) as [|l rest]; [eapply Run_Post; exact Hs|].
  exact Hs.
Qed.

Lemma keeps_write_text (ng : bool) (p : path) (c : string) :
  (forall f, p <> Bak f) -> keeps ng (write_text p c).
Proof.
  intros Hp s Hs. apply (Run_ext ng s _ [Wrote p] Hs).
  - apply (BK_frame s); try reflexivity; [|apply Hs].
    intros f. cbn. unfold upd. destruct p as [g|g|]; cbn; try reflexivity.
    destruct (file_eqb f g) eqn:Hfg; [|reflexivity].
    exfalso. apply (Hp f). destruct f, g; try discriminate; reflexivity.
  - reflexivity.
  - reflexivity.
Qed.

Lemma keeps_write_src (ng : bool) (f : file) (c : string) : keeps ng (write_text (Src f) c).
Proof. apply keeps_write_text. discriminate. Qed.

Lemma keeps_update_pom_xml (ng : bool) (o n : string) : keeps ng (update_pom_xml o n).
Proof. apply keeps_bind; [apply keeps_read_text|intros; apply keeps_write_src]. Qed.

Lemma keeps_update_main_java (ng : bool) (o n : string) : keeps ng (update_main_java o n).
Proof. apply keeps_bind; [apply keeps_read_text|intros; apply keeps_write_src]. Qed.

Lemma keeps_update_readme (ng : bool) (o n : string) : keeps ng (update_readme o n).
Proof. apply keeps_bind; [apply keeps_read_text|intros; apply keeps_write_src]. Qed.

Lemma keeps_update_changelog (ng : bool) (v : string) : keeps ng (update_changelog v).
Proof.
  apply keeps_bind; [apply keeps_path_exists|intros e].
  destruct (negb e); [apply keeps_ret|].
  apply keeps_bind; [apply keeps_read_text|intros c].
  apply keeps_bind; [apply keeps_get|intros st].
  destruct (update_changelog_text v (today st) c); [apply keeps_write_src|apply keeps_raise].
Qed.

Lemma file_eqb_refl (f : file) : file_eqb f f = true.
Proof. destruct f; reflexivity. Qed.

Lemma restore_file_ext (f : file) (s : state) :
  exists s' l, restore_file f s = (Ok tt, s') /\ events s' = (events s ++ l)%list /\
    no_ran l = true /\ backups_created s' = backups_created s /\ bakdir s' = bakdir s /\
    (forall g, fs s' (Bak g) = fs s (Bak g)) /\
    (forall g, file_eqb g f = false -> fs s' (Src g) = fs s (Src g)) /\
    fs s' (Src f) = match fs s (Bak f) with Some c => Some c | None => fs s (Src f) end.
Proof.
  unfold restore_file, bind, path_exists.
  destruct (fs s (Bak f)) as [c|] eqn:Hb.
  - unfold copy2, bind, read_text. rewrite Hb. unfold write_text.
    eexists; exists [Wrote (Src f)].
    split; [reflexivity|]. split; [reflexivity|]. split; [reflexivity|].
    split; [reflexivity|]. split; [reflexivity|]. split; [intros g; reflexivity|].
    split; [intros g Hg; cbn; unfold upd; cbn; rewrite Hg; reflexivity|].
    cbn. unfold upd. cbn. rewrite file_eqb_refl. reflexivity.
  - exists s, []. rewrite app_nil_r.
    split; [reflexivity|]. split; [reflexivity|]. split; [reflexivity|].
    split; [reflexivity|]. split; [reflexivity|]. split; [intros g; reflexivity|].
    split; [intros g Hg; reflexivity|reflexivity].
Qed.

Lemma restore_backups_ext (s : state) :
  exists s' l, restore_backups s = (Ok tt, s') /\ events s' = (events s ++ l)%list /\
    no_ran l = true /\ backups_created s' = backups_created s /\
    (backups_created s = false -> s' = s).
Proof.
  unfold restore_backups, bind, get, backup_dir_exists.
  destruct (backups_created s) eqn:Hc; cbn [negb orb];
    [destruct (bakdir s) eqn:Hd; cbn [negb orb]|].
  - destruct (restore_file_ext PomXml s) as (s1 & l1 & E1 & Ev1 & N1 & C1 & _).
    rewrite E1.
    destruct (restore_file_ext MainJava s1) as (s2 & l2 & E2 & Ev2 & N2 & C2 & _).
    rewrite E2.
    destruct (restore_file_ext ReadmeMd s2) as (s3 & l3 & E3 & Ev3 & N3 & C3 & _).
    rewrite E3.
    destruct (restore_file_ext ChangelogMd s3) as (s4 & l4 & E4 & Ev4 & N4 & C4 & _).
    rewrite E4.
    exists s4, (l1 ++ l2 ++ l3 ++ l4)%list. split; [reflexivity|].
    split; [rewrite Ev4, Ev3, Ev2, Ev1, !app_assoc; reflexivity|].
    split; [rewrite !no_ran_app, N1, N2, N3, N4; reflexivity|].
    split; [congruence|discriminate].
  - exists s, []. rewrite app_nil_r. repeat split; try reflexivity; congruence.
  - exists s, []. rewrite app_nil_r. repeat split; try reflexivity; congruence.
Qed.

(** Under [BK], [restore_backups] brings back the initial content of
    every declared file that existed. *)
Lemma restore_backups_BK (s : state) :
  BK s0 s ->
  exists s' l, restore_backups s = (Ok tt, s') /\ BK s0 s' /\ Restored s0 s' /\
    events s' = (events s ++ l)%list /\ no_ran l = true.
Proof.
  intros HB. pose proof HB as (Hc & Hd & Hb).
  unfold restore_backups, bind, get, backup_dir_exists. rewrite Hc, Hd. cbn [negb orb].
  destruct (restore_file_ext PomXml s) as (s1 & l1 & E1 & Ev1 & N1 & C1 & D1 & B1 & O1 & S1).
  rewrite E1.
  destruct (restore_file_ext MainJava s1) as (s2 & l2 & E2 & Ev2 & N2 & C2 & D2 & B2 & O2 & S2).
  rewrite E2.
  destruct (restore_file_ext ReadmeMd s2) as (s3 & l3 & E3 & Ev3 & N3 & C3 & D3 & B3 & O3 & S3).
  rewrite E3.
  destruct (restore_file_ext ChangelogMd s3) as (s4 & l4 & E4 & Ev4 & N4 & C4 & D4 & B4 & O4 & S4).
  rewrite E4.
  exists s4, (l1 ++ l2 ++ l3 ++ l4)%list. split; [reflexivity|].
  split.
  { apply (BK_frame s); [congruence|congruence| |exact HB].
    intros g. rewrite B4, B3, B2, B1. reflexivity. }
  split.
  { intros f Hf. pose proof (Hb f Hf) as Hbf.
    destruct f.
    - rewrite O4, O3, O2 by reflexivity. rewrite S1, Hbf.
      destruct (fs s0 (Src PomXml)); [reflexivity|congruence].
    - rewrite O4, O3 by reflexivity. rewrite S2, B1, Hbf.
      destruct (fs s0 (Src MainJava)); [reflexivity|congruence].
    - rewrite O4 by reflexivity. rewrite S3, B2, B1, Hbf.
      destruct (fs s0 (Src ReadmeMd)); [reflexivity|congruence].
    - rewrite S4, B3, B2, B1, Hbf.
      destruct (fs s0 (Src ChangelogMd)); [reflexivity|congruence]. }
  split; [rewrite Ev4, Ev3, Ev2, Ev1, !app_assoc; reflexivity|].
  rewrite !no_ran_app, N1, N2, N3, N4. reflexivity.
Qed.

Lemma events_log (s : state) (e : event) : events (log s e) = (events s ++ [e])%list.
Proof. reflexivity. Qed.

Lemma required_git (cmd : list string) : required_step cmd = false -> is_git cmd = false.
Proof.
  destruct cmd as [|x c]; [reflexivity|]. cbn.
  destruct (String.eqb x "git"); [rewrite orb_true_r; discriminate|reflexivity].
Qed.

(** [run_command cmd] with [check=True], from a state of the [try] block. *)
Lemma run_command_step (cmd : list string) :
  step (Post s0)
    (fun s => Run s0 false s /\ (cmd_eqb cmd tests_cmd = true -> no_git (events s) = true))
    (run_command cmd true) (fun _ => Run s0 false).
Proof.
  intros s [HR Hng]. pose proof HR as (HB & Hf & Ho & Hin & _).
  unfold run_command, subprocess_run, run_status, bind.
  destruct (proc s (events s) cmd) as [z|] eqn:Hp; cbn [ret raise].
  - destruct (z =? 0) eqn:Hz; cbn [negb andb].
    + unfold ret. cbv beta iota. unfold Run. rewrite !events_log. refine (conj _ (conj _ (conj _ (conj _ _)))).
      * apply (BK_frame s); try reflexivity. exact HB.
      * rewrite no_fail_app, Hf. cbn. rewrite Hz, orb_true_r. reflexivity.
      * apply ordered_after; assumption.
      * apply in_or_app. left. exact Hin.
      * discriminate.
    + set (s1 := log s (Ran cmd (Some z))).
      assert (HB1 : BK s0 s1) by (apply (BK_frame s); try reflexivity; exact HB).
      destruct (restore_backups_BK s1 HB1) as (s2 & l & E & HB2 & HR2 & Ev & Hl).
      rewrite E. unfold sys_exit, raise.
      assert (Hev : events s2 = (events s ++ [Ran cmd (Some z)] ++ l)%list)
        by (rewrite Ev; cbn; rewrite <- app_assoc; reflexivity).
      unfold Post, Ord. rewrite Hev.
      split; [split; [apply ordered_after; assumption|intros _; apply in_or_app; left; exact Hin]|].
      destruct (required_step cmd) eqn:Hr.
      * right. split; [reflexivity|]. split; [exact HR2|].
        unfold tests_ok. rewrite !tests_failed_app, (no_fail_tests _ Hf), (no_ran_tests _ Hl).
        cbn. rewrite Hz. cbn. rewrite orb_false_r, andb_true_r.
        destruct (cmd_eqb cmd tests_cmd) eqn:Ht; [|reflexivity]. cbn.
        rewrite no_git_app, (Hng eq_refl).
        apply cmd_eqb_eq in Ht. subst cmd. cbn. exact (no_ran_no_git _ Hl).
      * left. rewrite !no_fail_app, Hf, (no_ran_no_fail _ Hl). cbn. rewrite Hr. reflexivity.
  - unfold raise. cbv beta iota. unfold Post, Ord. rewrite events_log.
    split; [split; [apply ordered_after; assumption|intros _; apply in_or_app; left; exact Hin]|].
    left. rewrite no_fail_app, Hf. reflexivity.
Qed.

Lemma run_command_keeps (cmd : list string) :
  cmd_eqb cmd tests_cmd = false -> keeps false (run_command cmd true).
Proof.
  intros Hc. eapply step_weaken; [| |apply run_command_step].
  - intros s Hs. split; [exact Hs|congruence].
  - intros a s H. exact H.
Qed.

Lemma run_tests_step : step (Post s0) (Run s0 true) run_tests (fun _ => Run s0 false).
Proof.
  unfold run_tests. eapply step_bind; [|intros; apply keeps_ret].
  eapply step_weaken; [| |apply run_command_step].
  - intros s Hs. split; [apply Run_forget; exact Hs|intros _; apply Hs; reflexivity].
  - intros a s H. exact H.
Qed.

Lemma run_status_keeps (ng : bool) (cmd : list string) :
  required_step cmd = false -> keeps ng (run_status cmd).
Proof.
  intros Hr s HR. pose proof HR as (HB & Hf & Ho & Hin & Hg).
  unfold run_status. unfold Run. rewrite !events_log.
  refine (conj _ (conj _ (conj _ (conj _ _)))).
  - apply (BK_frame s); try reflexivity. exact HB.
  - rewrite no_fail_app, Hf. cbn. destruct (proc s (events s) cmd); [|reflexivity].
    rewrite Hr. reflexivity.
  - apply ordered_after; assumption.
  - apply in_or_app. left. exact Hin.
  - intros Hng. rewrite no_git_app, (Hg Hng). cbn. rewrite (required_git _ Hr). reflexivity.
Qed.

Lemma keeps_build_package : keeps false build_package.
Proof.
  apply keeps_bind; [apply run_command_keeps; reflexivity|intros; apply keeps_ret].
Qed.

Lemma keeps_deploy_release : keeps false deploy_release.
Proof.
  apply keeps_bind; [apply run_command_keeps; reflexivity|intros; apply keeps_ret].
Qed.

Lemma keeps_git_commit (v : string) : keeps false (git_commit v).
Proof.
  apply keeps_bind; [apply run_command_keeps; reflexivity|intros].
  apply keeps_bind; [apply run_command_keeps; reflexivity|intros; apply keeps_ret].
Qed.

Lemma keeps_git_tag (v : string) : keeps false (git_tag v).
Proof.
  apply keeps_bind; [apply run_command_keeps; reflexivity|intros; apply keeps_ret].
Qed.

Lemma keeps_git_push (b : bool) : keeps false (git_push b).
Proof.
  apply keeps_bind; [apply run_command_keeps; reflexivity|intros].
  destruct b; [|apply keeps_ret].
  apply keeps_bind; [apply run_command_keeps; reflexivity|intros; apply keeps_ret].
Qed.

Lemma remove_notes (s : state) :
  exists s', (e <- path_exists Notes;; if e then unlink Notes else ret tt) s = (Ok tt, s') /\
    events s' = events s /\ backups_created s' = backups_created s /\ bakdir s' = bakdir s /\
    (forall f, fs s' (Src f) = fs s (Src f)) /\ (forall f, fs s' (Bak f) = fs s (Bak f)).
Proof.
  unfold bind, path_exists, unlink, ret.
  destruct (fs s Notes) eqn:Hn; cbn.
  - rewrite Hn. eexists. split; [reflexivity|].
    repeat split; intros; reflexivity.
  - exists s. repeat split; intros; reflexivity.
Qed.

Lemma keeps_try_finally (ng : bool) {A : Type} (m : M A) (fin : M unit) :
  keeps ng m ->
  (forall s, exists s', fin s = (Ok tt, s') /\
     events s' = events s /\ backups_created s' = backups_created s /\ bakdir s' = bakdir s /\
     (forall f, fs s' (Src f) = fs s (Src f)) /\ (forall f, fs s' (Bak f) = fs s (Bak f))) ->
  keeps ng (try_finally m fin).
Proof.
  intros Hm Hfin s Hs. specialize (Hm s Hs). unfold try_finally.
  destruct (m s) as [r s2].
  destruct (Hfin s2) as (s3 & E & He & Hc & Hd & HS & HB). rewrite E.
  destruct r as [a|e].
  - exact (Run_frame ng s2 s3 He Hc Hd HS HB Hm).
  - exact (Post_frame e s2 s3 He Hc HS Hm).
Qed.

Lemma keeps_create_github_release (v : string) : keeps false (create_github_release v).
Proof.
  unfold create_github_release. cbv zeta.
  apply keeps_bind; [apply run_status_keeps; reflexivity|intros st].
  destruct st as [[|p|p]|]; try apply keeps_ret.
  apply keeps_bind; [apply run_status_keeps; reflexivity|intros st'].
  destruct st' as [[|p|p]|]; try apply keeps_ret.
  apply keeps_bind; [apply keeps_get|intros s].
  apply keeps_bind; [apply keeps_write_text; discriminate|intros _].
  apply keeps_try_finally; [|apply remove_notes].
  apply keeps_bind; [apply keeps_get|intros s'].
  apply keeps_bind; [|intros; apply keeps_ret].
  destruct (negb _); apply run_command_keeps; reflexivity.
Qed.

Lemma cleanup_step :
  step (Post s0) (Run s0 false) cleanup_backups
    (fun _ s => Ord s /\ no_fail (events s) = true).
Proof.
  intros s (HB & Hf & Ho & Hin & _).
  unfold cleanup_backups, bind, backup_dir_exists.
  destruct (bakdir s); cbn; (split; [split; [exact Ho|intros _; exact Hin]|exact Hf]).
Qed.

Lemma backup_file_ext (f : file) (s : state) :
  exists s' l, backup_file f s = (Ok tt, s') /\ events s' = (events s ++ l)%list /\
    bak_writes l = true /\ backups_created s' = backups_created s /\
    (forall g, fs s' (Src g) = fs s (Src g)) /\
    (forall g, file_eqb g f = false -> fs s' (Bak g) = fs s (Bak g)) /\
    (fs s (Src f) <> None -> fs s' (Bak f) = fs s (Src f)).
Proof.
  unfold backup_file, bind, path_exists.
  destruct (fs s (Src f)) as [c|] eqn:Hs.
  - unfold copy2, bind, read_text. rewrite Hs. unfold write_text.
    eexists; exists [Wrote (Bak f)].
    split; [reflexivity|]. split; [reflexivity|]. split; [reflexivity|].
    split; [reflexivity|]. split; [intros g; reflexivity|].
    split; [intros g Hg; cbn; unfold upd; cbn; rewrite Hg; reflexivity|].
    intros _. cbn. unfold upd. cbn. rewrite file_eqb_refl. reflexivity.
  - exists s, []. rewrite app_nil_r.
    split; [reflexivity|]. split; [reflexivity|]. split; [reflexivity|].
    split; [reflexivity|]. split; [intros g; reflexivity|].
    split; [intros g Hg; reflexivity|]. intros H. congruence.
Qed.

Lemma create_backups_run (s : state) :
  (forall f, fs s (Src f) = fs s0 (Src f)) -> events s = [] ->
  exists s', create_backups s = (Ok tt, s') /\ Run s0 true s'.
Proof.
  intros HS He. unfold create_backups, bind, mkdir_backup_dir.
  set (s' := set_bakdir s true).
  destruct (backup_file_ext PomXml s') as (s1 & l1 & E1 & Ev1 & N1 & C1 & S1 & O1 & B1).
  rewrite E1.
  destruct (backup_file_ext MainJava s1) as (s2 & l2 & E2 & Ev2 & N2 & C2 & S2 & O2 & B2).
  rewrite E2.
  destruct (backup_file_ext ReadmeMd s2) as (s3 & l3 & E3 & Ev3 & N3 & C3 & S3 & O3 & B3).
  rewrite E3.
  destruct (backup_file_ext ChangelogMd s3) as (s4 & l4 & E4 & Ev4 & N4 & C4 & S4 & O4 & B4).
  rewrite E4. unfold mark_backups_created.
  eexists. split; [reflexivity|].
  assert (Hl : bak_writes (l1 ++ l2 ++ l3 ++ l4) = true)
    by (rewrite !bak_writes_app, N1, N2, N3, N4; reflexivity).
  assert (Hev : events (log (set_backups_created s4 true) BackedUp)
                = ((l1 ++ l2 ++ l3 ++ l4) ++ [BackedUp])%list).
  { rewrite events_log. cbn [events set_backups_created].
    rewrite Ev4, Ev3, Ev2, Ev1. cbn [events set_bakdir s']. rewrite He. cbn.
    rewrite !app_assoc. reflexivity. }
  unfold Run. rewrite Hev.
  refine (conj _ (conj _ (conj _ (conj _ _)))).
  - split; [reflexivity|]. split.
    + cbn [bakdir log set_backups_created].
      assert (Hd : forall t t' (f : file), backup_file f t = (Ok tt, t') -> bakdir t' = bakdir t).
      { intros t t' f E. unfold backup_file, bind, path_exists in E.
        destruct (fs t (Src f)); [|injection E as <-; reflexivity].
        unfold copy2, bind, read_text in E. destruct (fs t (Src f)) eqn:X;
          [injection E as <-; reflexivity|discriminate]. }
      rewrite (Hd _ _ _ E4), (Hd _ _ _ E3), (Hd _ _ _ E2), (Hd _ _ _ E1). reflexivity.
    + intros f Hf. cbn [fs log set_backups_created].
      rewrite <- (HS f). rewrite <- (HS f) in Hf.
      change (fs s (Src f)) with (fs s' (Src f)) in Hf |- *.
      destruct f.
      * rewrite O4, O3, O2 by reflexivity. apply B1, Hf.
      * rewrite O4, O3 by reflexivity. rewrite B2 by (rewrite S1; exact Hf). apply S1.
      * rewrite O4 by reflexivity. rewrite B3 by (rewrite S2, S1; exact Hf).
        rewrite S2. apply S1.
      * rewrite B4 by (rewrite S3, S2, S1; exact Hf). rewrite S3, S2. apply S1.
  - rewrite no_fail_app, (no_ran_no_fail _ (bak_writes_no_ran _ Hl)). reflexivity.
  - unfold ordered. apply ordered_app; [apply bak_writes_ordered, Hl|reflexivity].
  - apply in_or_app. right. left. reflexivity.
  - intros _. rewrite no_git_app, (no_ran_no_git _ (bak_writes_no_ran _ Hl)). reflexivity.
Qed.

Lemma Fresh_Post (s : state) (e : exn) : Fresh s0 s -> Post s0 e s.
Proof.
  intros (HS & He & Hc). unfold Post, Ord. rewrite He, Hc.
  split; [split; [reflexivity|discriminate]|left; reflexivity].
Qed.

(** The [try] block of [main], from the state before the backup. *)
Lemma release_body_step (a : args) (cv nv : string) :
  step (Post s0) (Fresh s0) (release_body a cv nv)
    (fun _ s => Ord s /\ no_fail (events s) = true).
Proof.
  unfold release_body. cbv zeta.
  eapply step_bind with (R := fun _ => Run s0 true).
  { intros s (HS & He & _). destruct (create_backups_run s HS He) as (s' & E & HR).
    rewrite E. exact HR. }
  intro. eapply step_bind; [apply keeps_update_pom_xml|intro].
  eapply step_bind; [apply keeps_update_main_java|intro].
  eapply step_bind; [apply keeps_update_readme|intro].
  eapply step_bind; [apply keeps_update_changelog|intro].
  eapply step_bind with (R := fun _ => Run s0 false).
  { destruct (negb (skip_tests a)); [apply run_tests_step|].
    apply step_ret. intros s Hs. apply Run_forget, Hs. }
  intro. eapply step_bind; [apply keeps_build_package|intro].
  eapply step_bind with (R := fun _ => Run s0 false).
  { destruct (negb (no_deploy a)); [|apply keeps_ret].
    apply keeps_bind; [apply keeps_input|intros r].
    destruct (negb (is_yes r)); [apply keeps_ret|apply keeps_deploy_release]. }
  intro. eapply step_bind; [apply keeps_git_commit|intro].
  eapply step_bind; [apply keeps_git_tag|intro].
  eapply step_bind with (R := fun _ => Run s0 false); [destruct (negb (no_push a)); [apply keeps_git_push|apply keeps_ret]|intro].
  eapply step_bind with (R := fun _ => Run s0 false).
  { destruct (negb (no_github_release a)); [apply keeps_create_github_release|apply keeps_ret]. }
  intro. apply cleanup_step.
Qed.

(** The handler of [except Exception]: restore, then re-raise. *)
Lemma handler_post (e : exn) (s : state) :
  is_exception e = true -> Post s0 e s ->
  exists s', (restore_backups;; @raise unit e) s = (Exc e, s') /\ Post s0 e s'.
Proof.
  intros Hx ((Ho & Hin) & HG).
  destruct HG as [Hf|(-> & _)]; [|discriminate].
  destruct (restore_backups_ext s) as (s' & l & E & Ev & Hl & Hc & Hs).
  exists s'. unfold bind. rewrite E. split; [reflexivity|].
  destruct (backups_created s) eqn:Hb.
  - unfold Post, Ord. rewrite Ev, Hc.
    split; [split; [apply ordered_after; [apply Hin; reflexivity|exact Ho]|]|].
    + intros _. apply in_or_app. left. apply Hin. reflexivity.
    + left. rewrite no_fail_app, Hf, (no_ran_no_fail _ Hl). reflexivity.
  - rewrite (Hs eq_refl). unfold Post, Ord. rewrite Hb.
    split; [split; [exact Ho|discriminate]|left; exact Hf].
Qed.

Lemma keeps_fresh {A : Type} (m : M A) :
  (forall s, exists r s', m s = (r, s') /\ fs s' = fs s /\ events s' = events s /\
                          backups_created s' = backups_created s) ->
  step (Post s0) (Fresh s0) m (fun _ => Fresh s0).
Proof.
  intros H s Hs. destruct (H s) as (r & s' & E & Hf & He & Hc). rewrite E.
  assert (Hs' : Fresh s0 s').
  { destruct Hs as (HS & He' & Hc'). split; [intros f; rewrite Hf; apply HS|].
    split; congruence. }
  destruct r; [exact Hs'|apply Fresh_Post, Hs'].
Qed.

Lemma main_step (a : args) :
  step (Post s0) (Fresh s0) (main a) (fun _ s => Ord s /\ no_fail (events s) = true).
Proof.
  unfold main.
  eapply step_bind.
  { apply keeps_fresh. intros s. unfold get_current_version, bind, read_text.
    destruct (fs s (Src PomXml)); [|(eexists; eexists; split; [reflexivity|auto])].
    destruct (search version_tag_at _); (eexists; eexists; split; [reflexivity|auto]). }
  intros cv. eapply step_bind.
  { apply keeps_fresh. intros s. unfold or_value_error.
    destruct (if major a then _ else _); (eexists; eexists; split; [reflexivity|auto]). }
  intros nv. eapply step_bind; [apply keeps_fresh; intros s; exists (Ok s), s; auto|intros s].
  eapply step_bind.
  { apply keeps_fresh. intros s'. destruct (_ && _); (eexists; eexists; split; [reflexivity|auto]). }
  intro. destruct (dry_run a).
  { apply step_ret. intros s' (HS & He & Hc). unfold Ord. rewrite He, Hc.
    split; [split; [reflexivity|discriminate]|reflexivity]. }
  eapply step_bind.
  { apply keeps_fresh. intros s'. unfold input. destruct (stdin s');
      (eexists; eexists; split; [reflexivity|auto]). }
  intros r. destruct (negb (is_yes r)).
  { unfold sys_exit. apply step_raise. intros s'' H. apply Fresh_Post, H. }
  intros s' Hs'. pose proof (release_body_step a cv nv s' Hs') as H.
  unfold try_except. destruct (release_body a cv nv s') as [[u|e] s''];
    [exact H|].
  destruct (is_exception e) eqn:Hx; [|exact H].
  destruct (handler_post e s'' Hx H) as (s3 & E & HP). rewrite E. exact HP.
Qed.

End Invariants.

(** The outcome of a whole run of [main] from a fresh start. *)
Lemma main_outcome (a : args) (s0 s1 : state) (r : result unit) :
  events s0 = [] -> backups_created s0 = false -> main a s0 = (r, s1) ->
  Ord s1 /\
  (no_fail (events s1) = true \/
   (exit_code r = 1 /\ Restored s0 s1 /\ tests_ok (events s1) = true)).
Proof.
  intros He Hc Hm.
  assert (HF : Fresh s0 s0) by (split; [reflexivity|split; assumption]).
  pose proof (main_step s0 a s0 HF) as H. rewrite Hm in H.
  destruct r as [u|e].
  - destruct H as [Ho Hf]. split; [exact Ho|left; exact Hf].
  - destruct H as [Ho [Hf|(-> & HR & Ht)]]; split; try exact Ho; [left; exact Hf|].
    right. split; [reflexivity|split; assumption].
Qed.

Lemma replace_no_match (c old new : string) (count : option nat) :
  old <> EmptyString -> no_match_before old c EmptyString -> replace c old new count = c.
Proof.
  intros Hne Hn. unfold replace.
  destruct (String.eqb old EmptyString) eqn:Ho; [apply String.eqb_eq in Ho; congruence|].
  rewrite <- (sapp_nil_r c) at 1.
  rewrite (sub_go_nomatch (literal_at old) old new count c EmptyString (literal_at_none old) Hn).
  apply sapp_nil_r.
Qed.

(** C1: when a required step ([mvn] or [git]) exits with a non-zero
    status, the run ends with exit status 1 and every declared file that
    existed at the start has its initial content again; when the tests
    fail, no [git] command is run at all. *)
Theorem required_step_failure_rolls_back (a : args) (s0 s1 : state) (r : result unit) :
  events s0 = [] -> backups_created s0 = false -> main a s0 = (r, s1) ->
  (forall c z, In (Ran c (Some z)) (events s1) -> required_step c = true -> z <> 0 ->
     exit_code r = 1 /\ forall f, fs s0 (Src f) <> None -> fs s1 (Src f) = fs s0 (Src f)) /\
  (forall z, In (Ran tests_cmd (Some z)) (events s1) -> z <> 0 ->
     forall c st, In (Ran c st) (events s1) -> is_git c = false).
Proof.
  intros He Hc Hm. destruct (main_outcome a s0 s1 r He Hc Hm) as [_ HG]. split.
  - intros c z Hin Hr Hz. destruct HG as [Hf|(Hx & HR & _)].
    + exfalso. exact (Hz (no_fail_In _ c z Hf Hin Hr)).
    + split; [exact Hx|exact HR].
  - intros z Hin Hz c st Hin'. pose proof (tests_failed_In _ z Hin Hz) as Ht.
    destruct HG as [Hf|(_ & _ & Hok)].
    + rewrite (no_fail_tests _ Hf) in Ht. discriminate.
    + unfold tests_ok in Hok. rewrite Ht in Hok. exact (no_git_In _ c st Hok Hin').
Qed.

Lemma required_step_failure_rolls_back_witness :
  In (Ran tests_cmd (Some 1)) (events (snd (main default_args (sample_state tests_cmd)))) /\
  exit_code (fst (main default_args (sample_state tests_cmd))) = 1 /\
  ((forall c z, In (Ran c (Some z)) (events (snd (main default_args (sample_state tests_cmd)))) ->
      required_step c = true -> z <> 0 ->
      exit_code (fst (main default_args (sample_state tests_cmd))) = 1 /\
      forall f, fs (sample_state tests_cmd) (Src f) <> None ->
        fs (snd (main default_args (sample_state tests_cmd))) (Src f)
        = fs (sample_state tests_cmd) (Src f)) /\
   (forall z, In (Ran tests_cmd (Some z)) (events (snd (main default_args (sample_state tests_cmd)))) ->
      z <> 0 -> forall c st, In (Ran c st) (events (snd (main default_args (sample_state tests_cmd)))) ->
      is_git c = false)).
Proof.
  split; [vm_compute; do 9 right; left; reflexivity|]. split; [vm_compute; reflexivity|].
  apply (required_step_failure_rolls_back default_args (sample_state tests_cmd)
           (snd (main default_args (sample_state tests_cmd)))
           (fst (main default_args (sample_state tests_cmd)))).
  - reflexivity.
  - reflexivity.
  - apply surjective_pairing.
Defined.

(** C2: outside a dry run, a changelog that fails [validate_changelog]
    stops [main] with exit status 1 and leaves the state as it was: no
    backup, no file written, no command run. *)
Theorem invalid_changelog_aborts_untouched (a : args) (s0 : state) :
  dry_run a = false -> validate_changelog (fs s0 (Src ChangelogMd)) = false ->
  exists e, main a s0 = (Exc e, s0) /\ exit_code (Exc e) = 1.
Proof.
  intros Hd Hv. unfold main, get_current_version, bind, read_text.
  destruct (fs s0 (Src PomXml)) as [pom|]; [|exists FileNotFoundError; split; reflexivity].
  destruct (search version_tag_at pom) as [cv|]; unfold ret, raise;
    [|exists ValueError; split; reflexivity].
  unfold or_value_error.
  destruct (if major a then _ else _) as [nv|]; unfold ret, raise;
    [|exists ValueError; split; reflexivity].
  unfold get. rewrite Hd, Hv. exists (SystemExit 1). split; reflexivity.
Qed.

Lemma invalid_changelog_aborts_untouched_witness :
  validate_changelog (fs short_changelog (Src ChangelogMd)) = false /\
  exists e, main default_args short_changelog = (Exc e, short_changelog) /\ exit_code (Exc e) = 1.
Proof.
  split; [vm_compute; reflexivity|].
  apply invalid_changelog_aborts_untouched; [reflexivity|vm_compute; reflexivity].
Defined.

(** C3: every write of a declared file (pom.xml, Main.java, README.md,
    CHANGELOG.md) in a run of [main] comes after the end of the backup
    capture ([BackedUp], logged once the four copies are made). *)
Theorem writes_after_backup (a : args) (s0 : state) (n : nat) (f : file) :
  events s0 = [] -> backups_created s0 = false ->
  nth_error (events (snd (main a s0))) n = Some (Wrote (Src f)) ->
  In BackedUp (firstn n (events (snd (main a s0)))).
Proof.
  intros He Hc Hn.
  destruct (main_outcome a s0 (snd (main a s0)) (fst (main a s0)) He Hc
              (surjective_pairing _)) as [[Ho _] _].
  destruct (nth_error_split _ _ Hn) as (l1 & l2 & Hl & Hlen).
  rewrite Hl, <- Hlen, firstn_app, Nat.sub_diag, firstn_O, app_nil_r, firstn_all.
  unfold ordered in Ho. rewrite Hl in Ho.
  destruct (ordered_prefix false _ Ho l1 f l2 eq_refl) as [H|H]; [discriminate|exact H].
Qed.

Lemma writes_after_backup_witness :
  In BackedUp (firstn 5 (events (snd (main default_args (sample_state []))))).
Proof.
  apply (writes_after_backup default_args (sample_state []) 5 PomXml);
    [reflexivity|reflexivity|vm_compute; reflexivity].
Defined.

(** C5 (counterexample): on a Main.java that does not contain
    [version = "0.3.1"], [update_main_java] succeeds and writes the file back
    unchanged, and the whole release exits with status 0. *)
Lemma update_main_java_no_match_silent :
  update_main_java "0.3.1" "0.4.0" unversioned_main_java
  = (Ok tt, log (set_fs unversioned_main_java
                   (upd (fs unversioned_main_java) (Src MainJava) (Some "public class Main {}")))
              (Wrote (Src MainJava))) /\
  exit_code (fst (main default_args unversioned_main_java)) = 0.
Proof. split; [reflexivity|vm_compute; reflexivity]. Qed.

(** C5 (amended): when an artifact does not contain its version pattern,
    the substitution reports nothing: the update returns normally and
    writes the content back unchanged. *)
Theorem update_no_match_rewrites_unchanged (o n c : string) (s : state) :
  (fs s (Src PomXml) = Some c ->
   no_match_before ("<version>" ++ o ++ "</version>") c EmptyString ->
   update_pom_xml o n s
   = (Ok tt, log (set_fs s (upd (fs s) (Src PomXml) (Some c))) (Wrote (Src PomXml)))) /\
  (fs s (Src MainJava) = Some c ->
   no_match_before ("version = " ++ dq ++ o ++ dq) c EmptyString ->
   update_main_java o n s
   = (Ok tt, log (set_fs s (upd (fs s) (Src MainJava) (Some c))) (Wrote (Src MainJava)))) /\
  (fs s (Src ReadmeMd) = Some c ->
   no_match_before ("<version>" ++ o ++ "</version>") c EmptyString ->
   update_readme o n s
   = (Ok tt, log (set_fs s (upd (fs s) (Src ReadmeMd) (Some c))) (Wrote (Src ReadmeMd)))).
Proof.
  split; [|split]; intros Hc Hn;
    [unfold update_pom_xml|unfold update_main_java|unfold update_readme];
    unfold bind, read_text; rewrite Hc; unfold write_text;
    rewrite replace_no_match by (discriminate || exact Hn); reflexivity.
Qed.

Lemma update_no_match_rewrites_unchanged_witness :
  update_main_java "0.3.1" "0.4.0" unversioned_main_java
  = (Ok tt, log (set_fs unversioned_main_java
                   (upd (fs unversioned_main_java) (Src MainJava) (Some "public class Main {}")))
              (Wrote (Src MainJava))).
Proof.
  apply (proj1 (proj2 (update_no_match_rewrites_unchanged "0.3.1" "0.4.0"
                         "public class Main {}" unversioned_main_java)));
    [reflexivity|apply nowhere_within_ok; vm_compute; reflexivity].
Defined.

(** C10: without a completed backup capture in this run, or without the
    backup directory, [restore_backups] changes nothing. *)
Theorem restore_backups_noop (s : state) :
  backups_created s = false \/ bakdir s = false -> restore_backups s = (Ok tt, s).
Proof.
  intros H. unfold restore_backups, bind, get, backup_dir_exists.
  destruct H as [H|H]; rewrite H; cbn [negb orb]; [reflexivity|].
  rewrite orb_true_r. reflexivity.
Qed.

Lemma restore_backups_noop_witness :
  restore_backups (sample_state []) = (Ok tt, sample_state []).
Proof. apply restore_backups_noop. left. reflexivity. Defined.

End PipelineProofs.

(** ** More of release.py: the string functions *)
Module TextProofs.
Import Py Props PyFacts Re ReFacts Version VersionFacts Changelog ChangelogProofs
  Release Samples PipelineProofs.

Lemma version_tag_at_none (s : string) : prefix "<version>" s = false -> version_tag_at s = None.
Proof. unfold version_tag_at. intros ->. reflexivity. Qed.

Lemma version_tag_at_tag (v R : string) :
  v <> EmptyString -> all_chars digit_or_dot v = true ->
  version_tag_at ("<version>" ++ v ++ "</version>" ++ R) = Some v.
Proof.
  intros Hne Hv. unfold version_tag_at. rewrite prefix_app.
  change 9%nat with (String.length "<version>"). rewrite drop_app.
  destruct v as [|c v]; [congruence|]. cbn in Hv. apply andb_prop in Hv as [Hc Hv].
  cbn [append plus]. rewrite Hc.
  apply (star_consume _ _ v ("</version>" ++ R) (String c EmptyString)); [exact Hv|].
  change ("</version>" ++ R) with (String "<" ("/version>" ++ R)).
  rewrite star_cons. change (digit_or_dot "<") with false. cbv beta iota.
  change (String "<" ("/version>" ++ R)) with ("</version>" ++ R).
  rewrite prefix_app. reflexivity.
Qed.

Lemma replace_first (A old new R : string) :
  old <> EmptyString -> no_match_before old A (old ++ R) ->
  replace (A ++ old ++ R) old new (Some 1%nat) = A ++ new ++ R.
Proof.
  intros Hne Hn. unfold replace.
  destruct (String.eqb old EmptyString) eqn:Ho; [apply String.eqb_eq in Ho; congruence|].
  rewrite (sub_go_nomatch _ old _ _ A _ (literal_at_none old) Hn).
  rewrite (sub_go_match _ _ _ old); [|exact Hne|discriminate|].
  - change (option_map pred (Some 1%nat)) with (Some 0%nat). rewrite sub_go_count0.
    reflexivity.
  - unfold literal_at. rewrite prefix_app. reflexivity.
Qed.


(** [get_current_version] returns the digits-and-dots content of the first
    [<version>] tag of pom.xml (a later tag, e.g. of a dependency, is never
    read) and leaves the state as it is. *)
Theorem get_current_version_first_tag (A v R : string) (s : state) :
  fs s (Src PomXml) = Some (A ++ "<version>" ++ v ++ "</version>" ++ R) ->
  v <> EmptyString -> all_chars digit_or_dot v = true ->
  no_match_before "<version>" A ("<version>" ++ v ++ "</version>" ++ R) ->
  get_current_version s = (Ok v, s).
Proof.
  intros Hp Hne Hv Hn. unfold get_current_version, bind, read_text. rewrite Hp.
  rewrite (search_skip _ "<version>" _ _ version_tag_at_none Hn).
  rewrite (search_here _ _ v (version_tag_at_tag v R Hne Hv)). reflexivity.
Qed.

Lemma get_current_version_first_tag_witness :
  get_current_version (sample_state []) = (Ok "0.3.1", sample_state []).
Proof.
  apply (get_current_version_first_tag "<project>" "0.3.1" "</project>");
    [reflexivity|discriminate|reflexivity|].
  apply nowhere_within_ok. vm_compute. reflexivity.
Defined.

(** [update_pom_xml] replaces only the first [<version>old</version>] of
    pom.xml (the project's own version): everything after it, including
    further occurrences of the same tag, is written back unchanged. *)
Theorem update_pom_xml_first_only (o n A R : string) (s : state) :
  fs s (Src PomXml) = Some (A ++ "<version>" ++ o ++ "</version>" ++ R) ->
  no_match_before ("<version>" ++ o ++ "</version>") A ("<version>" ++ o ++ "</version>" ++ R) ->
  update_pom_xml o n s
  = (Ok tt, log (set_fs s (upd (fs s) (Src PomXml)
                             (Some (A ++ "<version>" ++ n ++ "</version>" ++ R))))
              (Wrote (Src PomXml))).
Proof.
  intros Hp Hn. unfold update_pom_xml, bind, read_text. rewrite Hp. unfold write_text.
  assert (E : "<version>" ++ o ++ "</version>" ++ R = ("<version>" ++ o ++ "</version>") ++ R)
    by (rewrite !sapp_assoc; reflexivity).
  rewrite E in Hn |- *.
  rewrite replace_first by (discriminate || exact Hn).
  rewrite !sapp_assoc. reflexivity.
Qed.

Lemma update_pom_xml_first_only_witness :
  update_pom_xml "0.3.1" "0.4.0"
    (set_fs (sample_state []) (upd sample_fs (Src PomXml)
       (Some ("<project><version>0.3.1</version>" ++
              "<dependency><version>0.3.1</version></dependency></project>"))))
  = (Ok tt, log (set_fs (set_fs (sample_state []) (upd sample_fs (Src PomXml)
       (Some ("<project><version>0.3.1</version>" ++
              "<dependency><version>0.3.1</version></dependency></project>"))))
       (upd (upd sample_fs (Src PomXml)
              (Some ("<project><version>0.3.1</version>" ++
                     "<dependency><version>0.3.1</version></dependency></project>")))
          (Src PomXml)
          (Some ("<project>" ++ "<version>" ++ "0.4.0" ++ "</version>" ++
                 "<dependency><version>0.3.1</version></dependency></project>"))))
       (Wrote (Src PomXml))).
Proof.
  apply (update_pom_xml_first_only "0.3.1" "0.4.0" "<project>"
           "<dependency><version>0.3.1</version></dependency></project>");
    [reflexivity|].
  apply nowhere_within_ok. vm_compute. reflexivity.
Defined.



(** The bumps are defined on exactly the strings [parse_version] accepts
    (any [int()] spelling, negative numbers included) and raise
    [ValueError] on the others; their result is a canonical version that
    parses back to the bumped triple. *)
Theorem bumps_on_parsed_versions (s : string) :
  match parse_version s with
  | Some (x, y, z) =>
      bump_minor s = Some (format_version (x, y + 1, 0)) /\
      bump_major s = Some (format_version (x + 1, 0, 0)) /\
      bump_patch s = Some (format_version (x, y, z + 1)) /\
      parse_version (format_version (x, y + 1, 0)) = Some (x, y + 1, 0) /\
      parse_version (format_version (x + 1, 0, 0)) = Some (x + 1, 0, 0) /\
      parse_version (format_version (x, y, z + 1)) = Some (x, y, z + 1)
  | None => bump_minor s = None /\ bump_major s = None /\ bump_patch s = None
  end.
Proof.
  unfold bump_minor, bump_major, bump_patch.
  destruct (parse_version s) as [[[x y] z]|]; [|split; [|split]; reflexivity].
  rewrite !parse_format. repeat split.
Qed.

(** [update_changelog] does nothing when CHANGELOG.md does not exist, and
    writes the text back unchanged when it has neither an [## [Unreleased]]
    heading nor an [[Unreleased]: ] link. *)
Theorem update_changelog_without_unreleased (v c : string) (s : state) :
  (fs s (Src ChangelogMd) = None -> update_changelog v s = (Ok tt, s)) /\
  (fs s (Src ChangelogMd) = Some c ->
   all_chars (fun ch => negb (Ascii.eqb ch "\")) (v ++ today s) = true ->
   no_match_before "## [Unreleased]" c EmptyString ->
   no_match_before "[Unreleased]: " c EmptyString ->
   update_changelog v s
   = (Ok tt, log (set_fs s (upd (fs s) (Src ChangelogMd) (Some c))) (Wrote (Src ChangelogMd)))).
Proof.
  split.
  - intros H. unfold update_changelog, bind, path_exists. rewrite H. reflexivity.
  - intros H Hb Hh Hl. unfold update_changelog, bind, path_exists, read_text, get.
    rewrite H. cbn [negb].
    assert (Hu : update_changelog_text v (today s) c = Some c).
    { unfold update_changelog_text, sub.
      rewrite all_chars_app in Hb. apply andb_prop in Hb as [Hv Ht].
      rewrite expand_template_plain.
      2:{ unfold version_section. rewrite !all_chars_app, Hv, Ht. reflexivity. }
      assert (Hs : sub_go (literal_at "## [Unreleased]") (version_section v (today s))
                     (Some 1%nat) O c = c).
      { rewrite <- (sapp_nil_r c) at 1.
        rewrite (sub_go_nomatch _ "## [Unreleased]" _ _ c _ (literal_at_none _) Hh).
        apply sapp_nil_r. }
      assert (Hq : search compare_link_at c = None).
      { rewrite <- (sapp_nil_r c).
        rewrite (search_skip _ "[Unreleased]: " _ _ compare_link_at_none Hl).
        reflexivity. }
      rewrite Hs, Hq. reflexivity. }
    rewrite H. cbv beta iota. rewrite Hu. reflexivity.
Qed.

Lemma update_changelog_without_unreleased_witness :
  update_changelog "0.4.0" (set_fs (sample_state []) (upd sample_fs (Src ChangelogMd) None))
  = (Ok tt, set_fs (sample_state []) (upd sample_fs (Src ChangelogMd) None)) /\
  update_changelog "0.4.0" (set_fs (sample_state [])
                              (upd sample_fs (Src ChangelogMd) (Some "# Changelog")))
  = (Ok tt, log (set_fs (set_fs (sample_state [])
                               (upd sample_fs (Src ChangelogMd) (Some "# Changelog")))
                   (upd (upd sample_fs (Src ChangelogMd) (Some "# Changelog"))
                      (Src ChangelogMd) (Some "# Changelog")))
              (Wrote (Src ChangelogMd))).
Proof.
  split.
  - apply (update_changelog_without_unreleased "0.4.0" EmptyString
             (set_fs (sample_state []) (upd sample_fs (Src ChangelogMd) None))).
    reflexivity.
  - apply (update_changelog_without_unreleased "0.4.0" "# Changelog");
      [reflexivity|vm_compute; reflexivity| |];
      apply nowhere_within_ok; vm_compute; reflexivity.
Defined.

Lemma elide_empty_filter (ls : list string) : forall h,
  (forall x, h = Some x -> prefix "###" x = true) ->
  filter (fun l => negb (prefix "###" l)) (elide_empty h ls)
  = filter (fun l => negb (prefix "###" l) && negb (String.eqb (strip l) EmptyString)) ls.
Proof.
  induction ls as [|line rest IH]; intros h Hh; [reflexivity|]. cbn [elide_empty filter].
  destruct (prefix "###" line) eqn:Hp; cbn [negb andb].
  - apply IH. intros x Hx. injection Hx as <-. exact Hp.
  - destruct (String.eqb (strip line) EmptyString) eqn:Hs; cbn [negb].
    + apply IH, Hh.
    + destruct h as [hd|]; cbn [filter].
      * rewrite (Hh hd eq_refl). cbn [negb]. rewrite Hp. cbn [negb].
        f_equal. apply IH. discriminate.
      * rewrite Hp. cbn [negb]. f_equal. apply IH. discriminate.
Qed.

Lemma elide_empty_In (ls : list string) : forall h x,
  In x (elide_empty h ls) -> h = Some x \/ In x ls.
Proof.
  induction ls as [|line rest IH]; intros h x Hx; [destruct Hx|]. cbn [elide_empty] in Hx.
  destruct (prefix "###" line).
  - destruct (IH _ _ Hx) as [H|H]; [injection H as ->; right; left; reflexivity|].
    right; right; exact H.
  - destruct (String.eqb (strip line) EmptyString).
    + destruct (IH _ _ Hx) as [H|H]; [left; exact H|right; right; exact H].
    + destruct h as [hd|].
      * destruct Hx as [<-|[<-|Hx]]; [left; reflexivity|right; left; reflexivity|].
        destruct (IH _ _ Hx) as [H|H]; [discriminate|right; right; exact H].
      * destruct Hx as [<-|Hx]; [right; left; reflexivity|].
        destruct (IH _ _ Hx) as [H|H]; [discriminate|right; right; exact H].
Qed.

Lemma elide_empty_followed (ls : list string) : forall h,
  (forall x, h = Some x -> prefix "###" x = true) ->
  headers_followed (elide_empty h ls) = true.
Proof.
  induction ls as [|line rest IH]; intros h Hh; [reflexivity|]. cbn [elide_empty].
  destruct (prefix "###" line) eqn:Hp.
  - apply IH. intros x Hx. injection Hx as <-. exact Hp.
  - destruct (String.eqb (strip line) EmptyString) eqn:Hs; [apply IH, Hh|].
    assert (Hr : headers_followed (elide_empty None rest) = true) by (apply IH; discriminate).
    destruct h as [hd|]; cbn [headers_followed].
    + rewrite (Hh hd eq_refl), Hp, Hs, Hr. reflexivity.
    + rewrite Hp, Hr. reflexivity.
Qed.

Lemma headers_followed_nth (l : list string) : headers_followed l = true ->
  forall n x, nth_error l n = Some x -> prefix "###" x = true ->
  exists y, nth_error l (S n) = Some y /\ prefix "###" y = false /\ strip y <> EmptyString.
Proof.
  induction l as [|z l IH]; intros Hl n x Hn Hx; [destruct n; discriminate|].
  cbn [headers_followed] in Hl. apply andb_prop in Hl as [Hz Hl].
  destruct n as [|n]; [|exact (IH Hl n x Hn Hx)].
  injection Hn as ->. rewrite Hx in Hz.
  destruct l as [|y l]; [discriminate|].
  apply andb_prop in Hz as [Hy Hs]. apply negb_true_iff in Hy, Hs.
  exists y. split; [reflexivity|]. split; [exact Hy|].
  intros E. rewrite E in Hs. discriminate.
Qed.

(** The loop of [get_version_changelog_entry] over the lines of an entry
    drops exactly the blank lines among the non-header lines and keeps the
    others in order; every line it outputs is a line of the entry, and
    every [###] header it keeps is immediately followed by a content line
    (neither a header nor blank). *)
Theorem elide_empty_headers (ls : list string) :
  filter (fun l => negb (prefix "###" l)) (elide_empty None ls)
  = filter (fun l => negb (prefix "###" l) && negb (String.eqb (strip l) EmptyString)) ls /\
  (forall x, In x (elide_empty None ls) -> In x ls) /\
  (forall n x, nth_error (elide_empty None ls) n = Some x -> prefix "###" x = true ->
     exists y, nth_error (elide_empty None ls) (S n) = Some y /\ prefix "###" y = false /\
               strip y <> EmptyString).
Proof.
  split; [apply elide_empty_filter; discriminate|]. split.
  - intros x Hx. destruct (elide_empty_In ls None x Hx) as [H|H]; [discriminate|exact H].
  - apply headers_followed_nth, elide_empty_followed. discriminate.
Qed.

End TextProofs.

(** ** More of release.py: the runs of the pipeline *)
Module RunProofs.
Import Py Props Re ReFacts Changelog Release Trace Samples PipelineProofs.

Lemma try_finally_state {A : Type} (m : M A) (fin : M unit) (s : state) :
  snd (try_finally m fin s) = snd (fin (snd (m s))).
Proof.
  unfold try_finally. destruct (m s) as [r s1]. cbn [snd].
  destruct (fin s1) as [[u|e] s2]; reflexivity.
Qed.

Lemma notes_fin_removes (s : state) :
  fs (snd ((e <- path_exists Notes;; if e then unlink Notes else ret tt) s)) Notes = None.
Proof.
  unfold bind, path_exists, unlink, ret. destruct (fs s Notes) eqn:Hn; cbn.
  - rewrite Hn. reflexivity.
  - exact Hn.
Qed.

Section Backups.
Variable s0 : state.

Local Abbreviation bk m := (step (fun _ => BK s0) (BK s0) m (fun _ => BK s0)).

Lemma bk_bind {A B : Type} (m : M A) (k : A -> M B) :
  bk m -> (forall a, bk (k a)) -> bk (bind m k).
Proof. intros H1 H2. eapply step_bind; [exact H1|exact H2]. Qed.

Lemma bk_ret {A : Type} (a : A) : bk (ret a).
Proof. apply step_ret. auto. Qed.

Lemma bk_raise {A : Type} (e : exn) : bk (@raise A e).
Proof. apply step_raise. auto. Qed.

Lemma bk_get : bk get.
Proof. intros s Hs. exact Hs. Qed.

Lemma bk_path_exists (p : path) : bk (path_exists p).
Proof. intros s Hs. exact Hs. Qed.

Lemma bk_read_text (p : path) : bk (read_text p).
Proof. intros s Hs. unfold read_text. destruct (fs s p); exact Hs. Qed.

Lemma bk_input : bk input.
Proof. intros s Hs. unfold input. destruct (stdin s); exact Hs. Qed.

Lemma bk_write_text (p : path) (c : string) : (forall f, p <> Bak f) -> bk (write_text p c).
Proof.
  intros Hp s Hs. apply (BK_frame s0 s); try reflexivity; [|exact Hs].
  intros f. cbn. unfold upd. destruct p as [g|g|]; cbn; try reflexivity.
  destruct (file_eqb f g) eqn:Hfg; [|reflexivity].
  exfalso. apply (Hp f). destruct f, g; try discriminate; reflexivity.
Qed.

Lemma bk_run_status (cmd : list string) : bk (run_status cmd).
Proof. intros s Hs. apply (BK_frame s0 s); try reflexivity. exact Hs. Qed.

Lemma bk_restore_backups : bk restore_backups.
Proof.
  intros s Hs. destruct (restore_backups_BK s0 s Hs) as (s' & l & E & HB & _). rewrite E.
  exact HB.
Qed.

Lemma bk_run_command (cmd : list string) (check : bool) : bk (run_command cmd check).
Proof.
  unfold run_command, subprocess_run.
  apply bk_bind; [apply bk_bind; [apply bk_run_status|]|]; intros st.
  - destruct st; [apply bk_ret|apply bk_raise].
  - destruct (_ && _); [|apply bk_ret].
    apply bk_bind; [apply bk_restore_backups|intros; apply bk_raise].
Qed.

Lemma bk_update_pom_xml (o n : string) : bk (update_pom_xml o n).
Proof. apply bk_bind; [apply bk_read_text|intros; apply bk_write_text; discriminate]. Qed.

Lemma bk_update_main_java (o n : string) : bk (update_main_java o n).
Proof. apply bk_bind; [apply bk_read_text|intros; apply bk_write_text; discriminate]. Qed.

Lemma bk_update_readme (o n : string) : bk (update_readme o n).
Proof. apply bk_bind; [apply bk_read_text|intros; apply bk_write_text; discriminate]. Qed.

Lemma bk_update_changelog (v : string) : bk (update_changelog v).
Proof.
  apply bk_bind; [apply bk_path_exists|intros e].
  destruct (negb e); [apply bk_ret|].
  apply bk_bind; [apply bk_read_text|intros c].
  apply bk_bind; [apply bk_get|intros st].
  destruct (update_changelog_text v (today st) c);
    [apply bk_write_text; discriminate|apply bk_raise].
Qed.

Lemma bk_try_finally {A : Type} (m : M A) (fin : M unit) :
  bk m ->
  (forall s, exists s', fin s = (Ok tt, s') /\
     events s' = events s /\ backups_created s' = backups_created s /\ bakdir s' = bakdir s /\
     (forall f, fs s' (Src f) = fs s (Src f)) /\ (forall f, fs s' (Bak f) = fs s (Bak f))) ->
  bk (try_finally m fin).
Proof.
  intros Hm Hfin s Hs. specialize (Hm s Hs). unfold try_finally.
  assert (H2 : BK s0 (snd (m s))) by (destruct (m s) as [[a|e] s2]; exact Hm).
  destruct (m s) as [r s2]. cbn [snd] in H2.
  destruct (Hfin s2) as (s3 & E & He & Hc & Hd & HS & HB). rewrite E.
  assert (H3 : BK s0 s3) by (apply (BK_frame s0 s2); assumption).
  destruct r; exact H3.
Qed.

Lemma bk_create_github_release (v : string) : bk (create_github_release v).
Proof.
  unfold create_github_release. cbv zeta.
  apply bk_bind; [apply bk_run_status|intros st].
  destruct st as [[|p|p]|]; try apply bk_ret.
  apply bk_bind; [apply bk_run_status|intros st'].
  destruct st' as [[|p|p]|]; try apply bk_ret.
  apply bk_bind; [apply bk_get|intros s].
  apply bk_bind; [apply bk_write_text; discriminate|intros _].
  apply bk_try_finally; [|apply remove_notes].
  apply bk_bind; [apply bk_get|intros s'].
  apply bk_bind; [|intros; apply bk_ret].
  destruct (negb _); apply bk_run_command.
Qed.

Lemma bk_cleanup :
  step (fun _ => BK s0) (BK s0) cleanup_backups
    (fun _ s => backups_created s = true /\ bakdir s = false /\ forall f, fs s (Bak f) = None).
Proof.
  intros s (Hc & Hd & _). unfold cleanup_backups, bind, backup_dir_exists. rewrite Hd.
  cbn. split; [exact Hc|]. split; [reflexivity|intros f; reflexivity].
Qed.

(** From the state before the backup, every exception leaving the [try]
    block of [main] leaves the backups in place, and a normal end removes
    them. *)
Lemma release_body_bk (a : args) (cv nv : string) :
  step (fun _ => BK s0) (Fresh s0) (release_body a cv nv)
    (fun _ s => backups_created s = true /\ bakdir s = false /\ forall f, fs s (Bak f) = None).
Proof.
  unfold release_body. cbv zeta.
  eapply step_bind with (R := fun _ => BK s0).
  { intros s (HS & He & _). destruct (create_backups_run s0 s HS He) as (s' & E & HR).
    rewrite E. exact (proj1 HR). }
  intro. eapply step_bind; [apply bk_update_pom_xml|intro].
  eapply step_bind; [apply bk_update_main_java|intro].
  eapply step_bind; [apply bk_update_readme|intro].
  eapply step_bind; [apply bk_update_changelog|intro].
  eapply step_bind with (R := fun _ => BK s0).
  { destruct (negb (skip_tests a)); [|apply bk_ret].
    apply bk_bind; [apply bk_run_command|intros; apply bk_ret]. }
  intro. eapply step_bind; [apply bk_bind; [apply bk_run_command|intros; apply bk_ret]|intro].
  eapply step_bind with (R := fun _ => BK s0).
  { destruct (negb (no_deploy a)); [|apply bk_ret].
    apply bk_bind; [apply bk_input|intros r].
    destruct (negb (is_yes r)); [apply bk_ret|].
    apply bk_bind; [apply bk_run_command|intros; apply bk_ret]. }
  intro. eapply step_bind.
  { apply bk_bind; [apply bk_run_command|intros].
    apply bk_bind; [apply bk_run_command|intros; apply bk_ret]. }
  intro. eapply step_bind; [apply bk_bind; [apply bk_run_command|intros; apply bk_ret]|intro].
  eapply step_bind with (R := fun _ => BK s0).
  { destruct (negb (no_push a)); [|apply bk_ret].
    apply bk_bind; [apply bk_run_command|intros b].
    apply bk_bind; [apply bk_run_command|intros; apply bk_ret]. }
  intro. eapply step_bind with (R := fun _ => BK s0).
  { destruct (negb (no_github_release a)); [apply bk_create_github_release|apply bk_ret]. }
  intro. apply bk_cleanup.
Qed.

End Backups.

(** [main] outside a dry run: either it stops before the [try] block,
    having at most read the answer to the confirmation, or it runs the
    [try] block after a [y]/[yes]. *)
Lemma main_cases (a : args) (s0 s1 : state) (r : result unit) :
  dry_run a = false -> main a s0 = (r, s1) ->
  (exists e, r = Exc e /\
     (e = SystemExit 0 \/ e = SystemExit 1 \/ e = ValueError \/ e = FileNotFoundError \/
      e = EOFError) /\
     fs s1 = fs s0 /\ events s1 = events s0 /\ bakdir s1 = bakdir s0 /\
     backups_created s1 = backups_created s0) \/
  (exists cv nv resp rest, stdin s0 = resp :: rest /\ is_yes resp = true /\
     try_except (release_body a cv nv) (fun e => restore_backups;; raise e)
       (set_stdin s0 rest) = (r, s1)).
Proof.
  intros Hd Hm. unfold main, get_current_version, read_text, bind in Hm.
  destruct (fs s0 (Src PomXml)) as [pom|]; cbv beta iota in Hm.
  2:{ left. injection Hm as <- <-. exists FileNotFoundError.
      split; [reflexivity|]. split; [tauto|]. repeat split. }
  destruct (search version_tag_at pom) as [cv|]; unfold ret, raise in Hm; cbv beta iota in Hm.
  2:{ left. injection Hm as <- <-. exists ValueError.
      split; [reflexivity|]. split; [tauto|]. repeat split. }
  unfold or_value_error in Hm.
  destruct (if major a then _ else _) as [nv|]; unfold ret, raise in Hm; cbv beta iota in Hm.
  2:{ left. injection Hm as <- <-. exists ValueError.
      split; [reflexivity|]. split; [tauto|]. repeat split. }
  unfold get in Hm. rewrite Hd in Hm. cbv beta iota in Hm. cbn [negb andb] in Hm.
  destruct (validate_changelog (fs s0 (Src ChangelogMd))); cbn [negb] in Hm;
    unfold sys_exit, raise, ret in Hm; cbv beta iota in Hm.
  2:{ left. injection Hm as <- <-. exists (SystemExit 1).
      split; [reflexivity|]. split; [tauto|]. repeat split. }
  unfold input in Hm. destruct (stdin s0) as [|resp rest] eqn:Hs; cbv beta iota in Hm.
  { left. injection Hm as <- <-. exists EOFError.
    split; [reflexivity|]. split; [tauto|]. repeat split. }
  destruct (is_yes resp) eqn:Hy; cbn [negb] in Hm; unfold sys_exit, raise in Hm.
  - right. exists cv, nv, resp, rest. split; [reflexivity|]. split; [exact Hy|exact Hm].
  - left. injection Hm as <- <-. exists (SystemExit 0).
    split; [reflexivity|]. split; [tauto|]. repeat split.
Qed.

Lemma main_dry (a : args) (s : state) : dry_run a = true -> snd (main a s) = s.
Proof.
  intros Hd. unfold main, get_current_version, read_text, bind.
  destruct (fs s (Src PomXml)) as [pom|]; cbv beta iota; [|reflexivity].
  destruct (search version_tag_at pom) as [cv|]; unfold ret, raise; cbv beta iota;
    [|reflexivity].
  unfold or_value_error.
  destruct (if major a then _ else _) as [nv|]; unfold ret, raise; cbv beta iota;
    [|reflexivity].
  unfold get. rewrite Hd. reflexivity.
Qed.

Lemma fresh_set_stdin (s0 : state) (l : list string) :
  events s0 = [] -> backups_created s0 = false -> Fresh s0 (set_stdin s0 l).
Proof. intros He Hc. split; [reflexivity|split; assumption]. Qed.

Lemma create_backups_spec (s : state) :
  exists s1, create_backups s = (Ok tt, s1) /\ backups_created s1 = true /\ bakdir s1 = true /\
    (forall f, fs s1 (Src f) = fs s (Src f)) /\
    (forall f, fs s1 (Bak f) = match fs s (Src f) with Some c => Some c | None => fs s (Bak f) end).
Proof.
  assert (Hb : forall t f, exists t', backup_file f t = (Ok tt, t') /\
            bakdir t' = bakdir t /\ (forall g, fs t' (Src g) = fs t (Src g)) /\
            (forall g, fs t' (Bak g) =
                       if file_eqb g f then
                         match fs t (Src f) with Some c => Some c | None => fs t (Bak f) end
                       else fs t (Bak g))).
  { intros t f. unfold backup_file, bind, path_exists.
    destruct (fs t (Src f)) as [c|] eqn:Hs; cbv beta iota.
    - unfold copy2, bind, read_text. rewrite Hs. unfold write_text.
      eexists. split; [reflexivity|]. split; [reflexivity|]. split; [intros g; reflexivity|].
      intros g. cbn. unfold upd. cbn. destruct (file_eqb g f) eqn:E; [|reflexivity].
      destruct g, f; try discriminate; reflexivity.
    - unfold ret. exists t. split; [reflexivity|]. split; [reflexivity|].
      split; [intros g; reflexivity|].
      intros g. destruct (file_eqb g f) eqn:E; [|reflexivity].
      destruct g, f; try discriminate; reflexivity. }
  unfold create_backups, bind, mkdir_backup_dir.
  destruct (Hb (set_bakdir s true) PomXml) as (s1 & E1 & D1 & S1 & B1). rewrite E1.
  destruct (Hb s1 MainJava) as (s2 & E2 & D2 & S2 & B2). rewrite E2.
  destruct (Hb s2 ReadmeMd) as (s3 & E3 & D3 & S3 & B3). rewrite E3.
  destruct (Hb s3 ChangelogMd) as (s4 & E4 & D4 & S4 & B4). rewrite E4.
  unfold mark_backups_created. eexists. split; [reflexivity|].
  split; [reflexivity|]. split; [cbn; rewrite D4, D3, D2, D1; reflexivity|].
  split; [intros f; cbn; rewrite S4, S3, S2, S1; reflexivity|].
  intros f. cbn [fs log set_backups_created].
  destruct f;
    repeat (first [rewrite B4|rewrite B3|rewrite B2|rewrite B1|rewrite S3|rewrite S2|rewrite S1];
            cbn [file_eqb fs set_bakdir]);
    reflexivity.
Qed.

Lemma restore_backups_spec (s : state) :
  backups_created s = true -> bakdir s = true ->
  exists s', restore_backups s = (Ok tt, s') /\
    forall f, fs s' (Src f) = match fs s (Bak f) with Some c => Some c | None => fs s (Src f) end.
Proof.
  intros Hc Hd. unfold restore_backups, bind, get, backup_dir_exists. rewrite Hc, Hd.
  cbn [negb orb].
  destruct (restore_file_ext PomXml s) as (s1 & l1 & E1 & _ & _ & _ & _ & B1 & O1 & S1).
  rewrite E1.
  destruct (restore_file_ext MainJava s1) as (s2 & l2 & E2 & _ & _ & _ & _ & B2 & O2 & S2).
  rewrite E2.
  destruct (restore_file_ext ReadmeMd s2) as (s3 & l3 & E3 & _ & _ & _ & _ & B3 & O3 & S3).
  rewrite E3.
  destruct (restore_file_ext ChangelogMd s3) as (s4 & l4 & E4 & _ & _ & _ & _ & B4 & O4 & S4).
  rewrite E4. exists s4. split; [reflexivity|]. intros f. destruct f.
  - rewrite O4, O3, O2 by reflexivity. exact S1.
  - rewrite O4, O3 by reflexivity. rewrite S2, B1, O1 by reflexivity. reflexivity.
  - rewrite O4 by reflexivity. rewrite S3, B2, B1, O2, O1 by reflexivity. reflexivity.
  - rewrite S4, B3, B2, B1, O3, O2, O1 by reflexivity. reflexivity.
Qed.

(** With [--dry-run], [main] changes nothing: no file is written, no
    command is run, no backup is made and no input is read.  It ends
    normally unless pom.xml is missing ([FileNotFoundError]) or its version
    cannot be found or bumped ([ValueError]). *)
Theorem dry_run_changes_nothing (a : args) (s : state) :
  dry_run a = true ->
  snd (main a s) = s /\
  (fst (main a s) = Ok tt \/ fst (main a s) = Exc ValueError \/
   fst (main a s) = Exc FileNotFoundError).
Proof.
  intros Hd. unfold main, get_current_version, read_text, bind.
  destruct (fs s (Src PomXml)) as [pom|]; cbv beta iota; [|split; [reflexivity|tauto]].
  destruct (search version_tag_at pom) as [cv|]; unfold ret, raise; cbv beta iota;
    [|split; [reflexivity|tauto]].
  unfold or_value_error.
  destruct (if major a then _ else _) as [nv|]; unfold ret, raise; cbv beta iota;
    [|split; [reflexivity|tauto]].
  unfold get. rewrite Hd. cbn. split; [reflexivity|tauto].
Qed.

Lemma dry_run_changes_nothing_witness :
  fst (main dry_run_args (sample_state [])) = Ok tt /\
  snd (main dry_run_args (sample_state [])) = sample_state [].
Proof.
  split; [vm_compute; reflexivity|].
  exact (proj1 (dry_run_changes_nothing dry_run_args (sample_state []) eq_refl)).
Defined.

(** Outside a dry run, when the first line of input is not [y] or [yes]
    in any case (or there is no input), [main] stops before the backup:
    the files, the log and both backup flags are unchanged, and it ends with
    an exception: [SystemExit 0] for a refusal, [SystemExit 1] for an
    invalid changelog, [ValueError] or [FileNotFoundError] for the version,
    [EOFError] for missing input. *)
Theorem declined_release_untouched (a : args) (s s1 : state) (r : result unit) :
  dry_run a = false -> (forall resp rest, stdin s = resp :: rest -> is_yes resp = false) ->
  main a s = (r, s1) ->
  fs s1 = fs s /\ events s1 = events s /\ bakdir s1 = bakdir s /\
  backups_created s1 = backups_created s /\
  exists e, r = Exc e /\
    (e = SystemExit 0 \/ e = SystemExit 1 \/ e = ValueError \/ e = FileNotFoundError \/
     e = EOFError).
Proof.
  intros Hd Hy Hm. destruct (main_cases a s s1 r Hd Hm) as
    [(e & Hr & He & Hf & Hev & Hb & Hc)|(cv & nv & resp & rest & Hs & Hyes & _)].
  - split; [exact Hf|]. split; [exact Hev|]. split; [exact Hb|]. split; [exact Hc|].
    exists e. split; [exact Hr|exact He].
  - rewrite (Hy resp rest Hs) in Hyes. discriminate.
Qed.

Lemma declined_release_untouched_witness :
  fst (main default_args declining_state) = Exc (SystemExit 0) /\
  fs (snd (main default_args declining_state)) = fs declining_state.
Proof.
  split; [vm_compute; reflexivity|].
  refine (proj1 (declined_release_untouched default_args declining_state _ _ eq_refl _
                   (surjective_pairing _))).
  intros resp rest H. vm_compute in H. injection H as <- _. vm_compute. reflexivity.
Defined.

(** [create_github_release] never leaves the release-notes file behind:
    when it did not exist before the call, it does not exist after it,
    whether [gh] is missing, fails or succeeds. *)
Theorem github_release_removes_notes (v : string) (s : state) :
  fs s Notes = None -> fs (snd (create_github_release v s)) Notes = None.
Proof.
  intros Hn. unfold create_github_release. cbv zeta.
  unfold bind at 1. unfold run_status at 1. cbv beta iota.
  destruct (proc s (events s) ["gh"; "--version"]) as [[|p|p]|]; try exact Hn.
  unfold bind at 1. unfold run_status at 1. cbv beta iota.
  destruct (proc _ _ ["gh"; "auth"; "status"]) as [[|p|p]|]; try exact Hn.
  unfold bind at 1, get. cbv beta iota. unfold bind at 1, write_text. cbv beta iota.
  rewrite try_finally_state. apply notes_fin_removes.
Qed.

Lemma github_release_removes_notes_witness :
  fs (snd (create_github_release "0.4.0" (sample_state []))) Notes = None /\
  In (Ran ["gh"; "release"; "create"; "v0.4.0"; "--title"; "Release 0.4.0"; "--notes-file";
           "/home/user/jthreaddump/.release-notes.md";
           "/home/user/jthreaddump/target/jthreaddump.jar#jthreaddump.jar"] (Some 0))
     (events (snd (create_github_release "0.4.0" (sample_state [])))).
Proof.
  split; [apply github_release_removes_notes; reflexivity|].
  vm_compute. repeat first [left; reflexivity|right].
Defined.

(** When [gh --version] is missing or exits with a non-zero status,
    [create_github_release] returns normally after that check alone; when
    it succeeds but [gh auth status] does not, it returns normally after
    the two checks.  No notes file is written and no release created. *)
Theorem github_release_skipped_without_gh (v : string) (s : state) :
  (proc s (events s) ["gh"; "--version"] <> Some 0 ->
   create_github_release v s
   = (Ok tt, log s (Ran ["gh"; "--version"] (proc s (events s) ["gh"; "--version"])))) /\
  (proc s (events s) ["gh"; "--version"] = Some 0 ->
   proc (log s (Ran ["gh"; "--version"] (Some 0)))
     (events s ++ [Ran ["gh"; "--version"] (Some 0)]) ["gh"; "auth"; "status"] <> Some 0 ->
   create_github_release v s
   = (Ok tt, log (log s (Ran ["gh"; "--version"] (Some 0)))
               (Ran ["gh"; "auth"; "status"]
                  (proc (log s (Ran ["gh"; "--version"] (Some 0)))
                     (events s ++ [Ran ["gh"; "--version"] (Some 0)])
                     ["gh"; "auth"; "status"])))).
Proof.
  split.
  - intros H. unfold create_github_release. cbv zeta.
    unfold bind at 1. unfold run_status at 1. cbv beta iota.
    destruct (proc s (events s) ["gh"; "--version"]) as [[|p|p]|]; [congruence|..];
      reflexivity.
  - intros H1 H2. unfold create_github_release. cbv zeta.
    unfold bind at 1. unfold run_status at 1. cbv beta iota. rewrite H1.
    unfold bind at 1. unfold run_status at 1. cbv beta iota.
    change (events (log s (Ran ["gh"; "--version"] (Some 0))))
      with (events s ++ [Ran ["gh"; "--version"] (Some 0)])%list.
    destruct (proc _ (events s ++ [Ran ["gh"; "--version"] (Some 0)])%list
                ["gh"; "auth"; "status"]) as [[|p|p]|]; [congruence|..]; reflexivity.
Qed.

Lemma github_release_skipped_without_gh_witness :
  fst (create_github_release "0.4.0" (sample_state ["gh"; "--version"])) = Ok tt /\
  fst (create_github_release "0.4.0" (sample_state ["gh"; "auth"; "status"])) = Ok tt.
Proof.
  split.
  - rewrite (proj1 (github_release_skipped_without_gh "0.4.0" (sample_state ["gh"; "--version"])));
      [reflexivity|vm_compute; discriminate].
  - rewrite (proj2 (github_release_skipped_without_gh "0.4.0"
                      (sample_state ["gh"; "auth"; "status"])));
      [reflexivity|vm_compute; reflexivity|vm_compute; discriminate].
Defined.

(** [cleanup_backups] always returns normally.  When the backup directory
    exists it removes it with every backup in it, and otherwise changes
    nothing; it touches neither the declared files, the notes file, the log
    nor the [backups_created] flag; after it, [restore_backups] does
    nothing. *)
Theorem cleanup_then_restore_noop (s : state) :
  exists s', cleanup_backups s = (Ok tt, s') /\ bakdir s' = false /\
    (bakdir s = true -> forall f, fs s' (Bak f) = None) /\
    (bakdir s = false -> s' = s) /\
    (forall f, fs s' (Src f) = fs s (Src f)) /\ fs s' Notes = fs s Notes /\
    events s' = events s /\ backups_created s' = backups_created s /\
    restore_backups s' = (Ok tt, s').
Proof.
  unfold cleanup_backups, bind, backup_dir_exists.
  destruct (bakdir s) eqn:Hd; cbv beta iota.
  - unfold rmtree_backup_dir. eexists. split; [reflexivity|].
    split; [reflexivity|]. split; [intros _ f; reflexivity|]. split; [discriminate|].
    split; [intros f; reflexivity|]. split; [reflexivity|]. split; [reflexivity|].
    split; [reflexivity|].
    unfold restore_backups, bind, get, backup_dir_exists. cbn. rewrite orb_true_r. reflexivity.
  - unfold ret. exists s. split; [reflexivity|]. split; [exact Hd|].
    split; [discriminate|]. split; [reflexivity|]. split; [intros f; reflexivity|].
    split; [reflexivity|]. split; [reflexivity|]. split; [reflexivity|].
    unfold restore_backups, bind, get, backup_dir_exists. rewrite Hd, orb_true_r. reflexivity.
Qed.

(** A run of [main] from a fresh start (empty log, no backup taken) that
    ends normally outside a dry run has run every required step
    successfully, made the backup, and removed the backup directory with
    all the backups. *)
Theorem successful_release_clean (a : args) (s0 s1 : state) (u : unit) :
  dry_run a = false -> events s0 = [] -> backups_created s0 = false ->
  main a s0 = (Ok u, s1) ->
  no_fail (events s1) = true /\ In BackedUp (events s1) /\ bakdir s1 = false /\
  forall f, fs s1 (Bak f) = None.
Proof.
  intros Hd He Hc Hm.
  destruct (main_cases a s0 s1 (Ok u) Hd Hm)
    as [(e & Hr & _)|(cv & nv & resp & rest & Hs & Hy & Ht)]; [discriminate|].
  pose proof (fresh_set_stdin s0 rest He Hc) as HF.
  pose proof (release_body_step s0 a cv nv _ HF) as H1.
  pose proof (release_body_bk s0 a cv nv _ HF) as H2.
  unfold try_except in Ht.
  destruct (release_body a cv nv (set_stdin s0 rest)) as [[u'|e] s2].
  - injection Ht as _ <-. destruct H1 as ((Ho & Hin) & Hf). destruct H2 as (Hb & Hd' & HB).
    split; [exact Hf|]. split; [apply Hin, Hb|]. split; [exact Hd'|exact HB].
  - destruct (is_exception e); [|discriminate].
    unfold bind in Ht. cbv beta in Ht.
    destruct (restore_backups_ext s2) as (s3 & l & E & _). rewrite E in Ht. discriminate.
Qed.

Lemma successful_release_clean_witness :
  fst (main default_args (sample_state [])) = Ok tt /\
  bakdir (snd (main default_args (sample_state []))) = false.
Proof.
  assert (E : fst (main default_args (sample_state [])) = Ok tt) by (vm_compute; reflexivity).
  split; [exact E|].
  refine (proj1 (proj2 (proj2 (successful_release_clean default_args (sample_state [])
            (snd (main default_args (sample_state []))) tt eq_refl eq_refl eq_refl _)))).
  rewrite <- E. apply surjective_pairing.
Defined.

(** When a run of [main] from a fresh start ends with an exception other
    than [SystemExit] (a missing file, a missing command, missing input, a
    changelog substitution error), every declared file that existed at the
    start has its initial content again. *)
Theorem unexpected_exception_restores (a : args) (s0 s1 : state) (e : exn) :
  events s0 = [] -> backups_created s0 = false -> main a s0 = (Exc e, s1) ->
  is_exception e = true ->
  forall f, fs s0 (Src f) <> None -> fs s1 (Src f) = fs s0 (Src f).
Proof.
  intros He Hc Hm Hx f Hf.
  destruct (dry_run a) eqn:Hd.
  - pose proof (main_dry a s0 Hd) as Hs. rewrite Hm in Hs. cbn [snd] in Hs. subst s1.
    reflexivity.
  - destruct (main_cases a s0 s1 _ Hd Hm)
      as [(e' & _ & _ & Hfs & _)|(cv & nv & resp & rest & Hs & Hy & Ht)];
      [rewrite Hfs; reflexivity|].
    pose proof (fresh_set_stdin s0 rest He Hc) as HF.
    pose proof (release_body_bk s0 a cv nv _ HF) as H2.
    unfold try_except in Ht.
    destruct (release_body a cv nv (set_stdin s0 rest)) as [[u'|e'] s2]; [discriminate|].
    destruct (is_exception e') eqn:Hx'.
    + unfold bind in Ht. cbv beta in Ht.
      destruct (restore_backups_BK s0 s2 H2) as (s3 & l & E & _ & HR & _).
      rewrite E in Ht. unfold raise in Ht. injection Ht as _ <-. apply HR, Hf.
    + injection Ht as -> _. congruence.
Qed.

Lemma unexpected_exception_restores_witness :
  fst (main default_args missing_main_java) = Exc FileNotFoundError /\
  In (Wrote (Src PomXml)) (events (snd (main default_args missing_main_java))) /\
  fs (snd (main default_args missing_main_java)) (Src PomXml) = fs missing_main_java (Src PomXml).
Proof.
  assert (E : fst (main default_args missing_main_java) = Exc FileNotFoundError)
    by (vm_compute; reflexivity).
  split; [exact E|]. split; [vm_compute; repeat first [left; reflexivity|right]|].
  apply (unexpected_exception_restores default_args missing_main_java
           (snd (main default_args missing_main_java)) FileNotFoundError);
    [reflexivity|reflexivity| |reflexivity|vm_compute; discriminate].
  rewrite <- E. apply surjective_pairing.
Defined.

(** The backup and restore round trip: after [create_backups], as long as
    the backups and the two flags are left as they are, [restore_backups]
    gives every declared file that existed at the backup its content of
    that time.  A file that did not exist is recreated from a copy left in
    the backup directory by an earlier run when there is one, and kept as
    it is otherwise. *)
Theorem backup_restore_roundtrip (s s2 : state) :
  backups_created s2 = true -> bakdir s2 = true ->
  (forall f, fs s2 (Bak f) = fs (snd (create_backups s)) (Bak f)) ->
  forall f, fs (snd (restore_backups s2)) (Src f)
            = match fs s (Src f) with
              | Some c => Some c
              | None => match fs s (Bak f) with Some b => Some b | None => fs s2 (Src f) end
              end.
Proof.
  intros Hc Hd HB f.
  destruct (create_backups_spec s) as (s1 & E1 & _ & _ & _ & B1).
  destruct (restore_backups_spec s2 Hc Hd) as (s3 & E3 & S3).
  rewrite E3. cbn [snd]. rewrite S3, HB, E1. cbn [snd]. rewrite B1.
  destruct (fs s (Src f)); [reflexivity|]. destruct (fs s (Bak f)); reflexivity.
Qed.

Lemma backup_restore_roundtrip_witness :
  fs (snd (restore_backups (snd (create_backups stale_backup_state)))) (Src ChangelogMd)
  = Some "# Changelog".
Proof.
  rewrite (backup_restore_roundtrip stale_backup_state (snd (create_backups stale_backup_state)));
    [reflexivity|vm_compute; reflexivity|vm_compute; reflexivity|intros f; reflexivity].
Defined.

End RunProofs.
